(** * The lists router of the tRPC API (packages/trpc/routers/lists.ts)

    A shallow embedding of the router: the two tables it reads and writes,
    the store calls it issues, the [ensureListOwnership] middleware and the
    eight procedures, followed by the properties of the list and membership
    subsystem.

    Handlers are written in a state-and-exception monad over the store: an
    [await]ed store call is a monadic step, a [throw] is the exceptional
    completion, and the store keeps whatever was written before a throw. *)

From Stdlib Require Import String List Bool Arith Lia.
Import ListNotations.
Open Scope string_scope.

(* ------------------------------------------------------------------ *)
(** ** Errors *)

(** The codes of [TRPCError] that the router uses. *)
Inductive TRPC_ERROR_CODE : Type :=
| UNAUTHORIZED
| NOT_FOUND
| FORBIDDEN
| BAD_REQUEST
| INTERNAL_SERVER_ERROR.

(** [new TRPCError({ code, message })]; [message] is optional. *)
Record TRPCError : Type := mkTRPCError {
  code : TRPC_ERROR_CODE;
  message : option string
}.

(** What a handler can throw: a [TRPCError], a [SqliteError] with its code,
    the [AssertionError] of node's [assert], the error of [tiny-invariant],
    a [TypeError] (property read on [null]) or any other error. *)
Inductive Exn : Type :=
| ETRPC (e : TRPCError)
| ESqlite (sqlite_code : string)
| EAssertion
| EInvariant
| ETypeError
| EOther (what : string).

(** The error kinds of the specification. *)
Inductive ErrorKind : Type :=
| Unauthenticated
| NotFound
| Forbidden
| InvalidArgument
| Internal.

(** Modelled from the spec: the outer request layer, which is not part of
    the router. A [TRPCError] reaches the caller with its own code; every
    other exception is the opaque [Internal] failure. *)
Definition kindOf (e : Exn) : ErrorKind :=
  match e with
  | ETRPC t =>
      match code t with
      | UNAUTHORIZED => Unauthenticated
      | NOT_FOUND => NotFound
      | FORBIDDEN => Forbidden
      | BAD_REQUEST => InvalidArgument
      | INTERNAL_SERVER_ERROR => Internal
      end
  | _ => Internal
  end.

(* ------------------------------------------------------------------ *)
(** ** Data model *)

Inductive ListType : Type := manual | smart.

Definition ListType_eqb (a b : ListType) : bool :=
  match a, b with
  | manual, manual | smart, smart => true
  | _, _ => false
  end.

(** A row of the [bookmarkLists] table. *)
Module BookmarkList.
Record t : Type := mk {
  id : string;
  name : string;
  icon : string;
  parentId : option string;
  type : ListType;
  query : option string;
  userId : string
}.
End BookmarkList.

(** A row of the [bookmarksInLists] table. *)
Module BookmarkInList.
Record t : Type := mk {
  listId : string;
  bookmarkId : string
}.
End BookmarkInList.

Module User.
Record t : Type := mk { id : string }.
End User.

(** The request context: [ctx.user] is absent for an anonymous caller;
    [ctx.db] is the state of the monad below. *)
Record Context : Type := mkContext { user : option User.t }.

(** The two tables, rows in insertion order. *)
Record DB : Type := mkDB {
  bookmarkLists : list BookmarkList.t;
  bookmarksInLists : list BookmarkInList.t
}.

(** A JavaScript property that may be missing, [null] or a value. *)
Inductive Nullish (A : Type) : Type :=
| undefined
| null
| value (a : A).
Arguments undefined {A}.
Arguments null {A}.
Arguments value {A} a.

(** [if (x)] on a nullish string: only a non-empty string is truthy. *)
Definition truthy (x : Nullish string) : bool :=
  match x with
  | value s => negb (s =? "")
  | _ => false
  end.

(* ------------------------------------------------------------------ *)
(** ** The monad of handlers *)

Inductive Completion (A : Type) : Type :=
| Return (a : A)
| Throw (e : Exn).
Arguments Return {A} a.
Arguments Throw {A} e.

Definition Store (A : Type) : Type := DB -> Completion A * DB.

Definition ret {A} (a : A) : Store A := fun db => (Return a, db).

Definition throw {A} (e : Exn) : Store A := fun db => (Throw e, db).

Definition bind {A B} (m : Store A) (k : A -> Store B) : Store B :=
  fun db =>
    match m db with
    | (Return a, db') => k a db'
    | (Throw e, db') => (Throw e, db')
    end.

(** [try { m } catch (e) { h e }] *)
Definition try_catch {A} (m : Store A) (h : Exn -> Store A) : Store A :=
  fun db =>
    match m db with
    | (Return a, db') => (Return a, db')
    | (Throw e, db') => h e db'
    end.

Declare Scope store_scope.
Delimit Scope store_scope with store.
Notation "x <- m ;; k" := (bind m (fun x => k))
  (at level 61, m at next level, right associativity) : store_scope.
Notation "m ;; k" := (bind m (fun _ => k))
  (at level 61, right associativity) : store_scope.
Open Scope store_scope.

Definition throwTRPC {A} (c : TRPC_ERROR_CODE) (msg : option string) : Store A :=
  throw (ETRPC (mkTRPCError c msg)).

(** [invariant(x)] of tiny-invariant: throws when [x] is falsy. *)
Definition invariant {A} (x : option A) : Store A :=
  match x with
  | Some a => ret a
  | None => throw EInvariant
  end.

(* ------------------------------------------------------------------ *)
(** ** Store calls *)

(** [and(eq(bookmarkLists.id, listId), eq(bookmarkLists.userId, userId))] *)
Definition id_and_owner (listId userId : string) (l : BookmarkList.t) : bool :=
  (BookmarkList.id l =? listId) && (BookmarkList.userId l =? userId).

(** [eq(bookmarkLists.id, listId)] *)
Definition id_is (listId : string) (l : BookmarkList.t) : bool :=
  BookmarkList.id l =? listId.

(** [and(eq(bookmarksInLists.listId, listId),
         eq(bookmarksInLists.bookmarkId, bookmarkId))] *)
Definition pair_is (listId bookmarkId : string) (m : BookmarkInList.t) : bool :=
  (BookmarkInList.listId m =? listId) && (BookmarkInList.bookmarkId m =? bookmarkId).

(** [db.query.bookmarkLists.findFirst({ where })] *)
Definition findFirst (where_ : BookmarkList.t -> bool) : Store (option BookmarkList.t) :=
  fun db => (Return (find where_ (bookmarkLists db)), db).

(** [db.query.bookmarkLists.findMany({ where })] *)
Definition findMany (where_ : BookmarkList.t -> bool) : Store (list BookmarkList.t) :=
  fun db => (Return (filter where_ (bookmarkLists db)), db).

(** [db.insert(bookmarkLists).values(v).returning()]. The id column is
    filled by the schema's generator; [newId] is the id it produced. The
    primary key rejects an id that is already taken. *)
Definition insert_bookmarkLists (newId : string) (name icon : string)
    (userId : string) (parentId : option string) (type : ListType)
    (query : option string) : Store (list BookmarkList.t) :=
  fun db =>
    if existsb (id_is newId) (bookmarkLists db)
    then (Throw (ESqlite "SQLITE_CONSTRAINT_PRIMARYKEY"), db)
    else
      let row := BookmarkList.mk newId name icon parentId type query userId in
      (Return [row], mkDB (bookmarkLists db ++ [row]) (bookmarksInLists db)).

(** The object given to [.set(...)]: a key whose value is [undefined] is
    left out of the UPDATE, [null] stores NULL. *)
Record UpdateSet : Type := mkUpdateSet {
  set_name : option string;
  set_icon : option string;
  set_parentId : Nullish string;
  set_query : Nullish string
}.

Definition assign {A} (provided : option A) (old : A) : A :=
  match provided with
  | Some a => a
  | None => old
  end.

Definition assign_nullable {A} (provided : Nullish A) (old : option A) : option A :=
  match provided with
  | undefined => old
  | null => None
  | value a => Some a
  end.

Definition apply_set (s : UpdateSet) (l : BookmarkList.t) : BookmarkList.t :=
  BookmarkList.mk
    (BookmarkList.id l)
    (assign (set_name s) (BookmarkList.name l))
    (assign (set_icon s) (BookmarkList.icon l))
    (assign_nullable (set_parentId s) (BookmarkList.parentId l))
    (BookmarkList.type l)
    (assign_nullable (set_query s) (BookmarkList.query l))
    (BookmarkList.userId l).

(** Is every key of the set [undefined]? *)
Definition no_values (s : UpdateSet) : bool :=
  match set_name s, set_icon s, set_parentId s, set_query s with
  | None, None, undefined, undefined => true
  | _, _, _, _ => false
  end.

(** [db.update(bookmarkLists).set(s).where(w).returning()]. The query
    builder refuses a set with no key left (No values to set). *)
Definition update_bookmarkLists (s : UpdateSet) (where_ : BookmarkList.t -> bool)
    : Store (list BookmarkList.t) :=
  fun db =>
    if no_values s
    then (Throw (EOther "No values to set"), db)
    else
      (Return (map (apply_set s) (filter where_ (bookmarkLists db))),
       mkDB (map (fun l => if where_ l then apply_set s l else l) (bookmarkLists db))
            (bookmarksInLists db)).

(** Modelled from the spec: the foreign key of [bookmarksInLists.listId],
    declared in the schema, which is not part of the router. Deleting a list
    removes every membership row that references it. *)
Definition cascade (deleted : list BookmarkList.t) (m : BookmarkInList.t) : bool :=
  negb (existsb (id_is (BookmarkInList.listId m)) deleted).

(** [db.delete(bookmarkLists).where(w)]; the result is [changes]. *)
Definition delete_bookmarkLists (where_ : BookmarkList.t -> bool) : Store nat :=
  fun db =>
    let deleted := filter where_ (bookmarkLists db) in
    (Return (length deleted),
     mkDB (filter (fun l => negb (where_ l)) (bookmarkLists db))
          (filter (cascade deleted) (bookmarksInLists db))).

(** [db.insert(bookmarksInLists).values(row)]. [fault] is the failure of the
    store itself, if any (I/O, lock, another constraint); otherwise the
    primary key on the pair rejects a row that is already there. *)
Definition insert_bookmarksInLists (fault : option Exn) (row : BookmarkInList.t)
    : Store unit :=
  fun db =>
    match fault with
    | Some e => (Throw e, db)
    | None =>
        if existsb (pair_is (BookmarkInList.listId row) (BookmarkInList.bookmarkId row))
                   (bookmarksInLists db)
        then (Throw (ESqlite "SQLITE_CONSTRAINT_PRIMARYKEY"), db)
        else (Return tt, mkDB (bookmarkLists db) (bookmarksInLists db ++ [row]))
    end.

(** [db.delete(bookmarksInLists).where(w)]; the result is [changes]. *)
Definition delete_bookmarksInLists (where_ : BookmarkInList.t -> bool) : Store nat :=
  fun db =>
    (Return (length (filter where_ (bookmarksInLists db))),
     mkDB (bookmarkLists db) (filter (fun m => negb (where_ m)) (bookmarksInLists db))).

(** [db.query.bookmarksInLists.findMany({ where, with: { list: true } })]:
    each row with the list it references ([null] when there is none). *)
Definition findMany_with_list (where_ : BookmarkInList.t -> bool)
    : Store (list (BookmarkInList.t * option BookmarkList.t)) :=
  fun db =>
    (Return (map (fun m => (m, find (id_is (BookmarkInList.listId m)) (bookmarkLists db)))
                 (filter where_ (bookmarksInLists db))),
     db).

(* ------------------------------------------------------------------ *)
(** ** Middlewares *)

(** Modelled from the spec: [authedProcedure], declared with the tRPC
    instance outside the router. It fails [Unauthenticated] when no caller
    identity is present and otherwise hands the caller to the procedure,
    where [ctx.user] is then known to be set. *)
Definition authedProcedure {A} (ctx : Context) (next : User.t -> Store A) : Store A :=
  match user ctx with
  | None => throwTRPC UNAUTHORIZED None
  | Some u => next u
  end.

(** [ensureListOwnership]: the list is read first (only its [userId] column
    is used), then the three checks run in the order of the source. *)
Definition ensureListOwnership {A} (ctx : Context) (listId : string)
    (next : Store A) : Store A :=
  list <- findFirst (id_is listId);;
  match user ctx with
  | None => throwTRPC UNAUTHORIZED (Some "User is not authorized")
  | Some u =>
      match list with
      | None => throwTRPC NOT_FOUND (Some "List not found")
      | Some l =>
          if negb (BookmarkList.userId l =? User.id u)
          then throwTRPC FORBIDDEN (Some "User is not allowed to access resource")
          else next
      end
  end.

(** Other requests running while this one awaits: the store moves from
    [db] to [env db] between two steps of a handler. *)
Definition interleave (env : DB -> DB) : Store unit :=
  fun db => (Return tt, env db).

(* ------------------------------------------------------------------ *)
(** ** Inputs and outputs of the procedures *)

(** The input of [create] after validation. *)
Module NewList.
Record t : Type := mk {
  name : string;
  icon : string;
  parentId : Nullish string;
  type : ListType;
  query : Nullish string
}.
End NewList.

(** The input of [edit] after validation. *)
Module EditList.
Record t : Type := mk {
  listId : string;
  name : option string;
  icon : option string;
  parentId : Nullish string;
  query : Nullish string
}.
End EditList.

(** The object that [get] builds. *)
Module ZBookmarkList.
Record t : Type := mk {
  id : string;
  name : string;
  icon : string;
  parentId : option string;
  type : ListType;
  query : option string
}.
End ZBookmarkList.

(** A column given [undefined] or [null] on insert is stored as NULL. *)
Definition column {A} (x : Nullish A) : option A :=
  match x with
  | value a => Some a
  | _ => None
  end.

(* ------------------------------------------------------------------ *)
(** ** The router *)

Module listsAppRouter.
Section Router.

(** Modelled from the spec: the decision of [ensureBookmarkOwnership],
    which lives in the bookmarks router. It has the contract shape of the
    list guard and no effect beyond its read: [None] lets the call
    through, [Some e] aborts it with [e]. *)
Variable authorizeBookmark : Context -> string -> option TRPCError.

Definition ensureBookmarkOwnership {A} (ctx : Context) (bookmarkId : string)
    (next : Store A) : Store A :=
  match authorizeBookmark ctx bookmarkId with
  | Some e => throw (ETRPC e)
  | None => next
  end.

Definition create_mutation (newId : string) (u : User.t) (input : NewList.t)
    : Store BookmarkList.t :=
  rows <- insert_bookmarkLists newId
            (NewList.name input)
            (NewList.icon input)
            (User.id u)
            (column (NewList.parentId input))
            (NewList.type input)
            (column (NewList.query input));;
  match rows with
  | result :: _ => ret result
  | [] => throw (EOther "no row returned")
  end.

Definition create (newId : string) (ctx : Context) (input : NewList.t)
    : Store BookmarkList.t :=
  authedProcedure ctx (fun u => create_mutation newId u input).

Definition edit_mutation (u : User.t) (input : EditList.t) : Store BookmarkList.t :=
  (if truthy (EditList.query input)
   then
     list <- findFirst (id_and_owner (EditList.listId input) (User.id u));;
     (* List must exist given that we passed the ownership check *)
     l <- invariant list;;
     if negb (ListType_eqb (BookmarkList.type l) smart)
     then throwTRPC BAD_REQUEST (Some "Manual lists cannot have a query")
     else ret tt
   else ret tt);;
  result <- update_bookmarkLists
              (mkUpdateSet (EditList.name input)
                           (EditList.icon input)
                           (EditList.parentId input)
                           (EditList.query input))
              (id_and_owner (EditList.listId input) (User.id u));;
  match result with
  | [] => throwTRPC NOT_FOUND None
  | first :: _ => ret first
  end.

Definition edit (ctx : Context) (input : EditList.t) : Store BookmarkList.t :=
  authedProcedure ctx (fun u =>
    ensureListOwnership ctx (EditList.listId input) (edit_mutation u input)).

Definition delete_mutation (u : User.t) (listId : string) : Store unit :=
  changes <- delete_bookmarkLists (id_and_owner listId (User.id u));;
  if (changes =? 0)%nat then throwTRPC NOT_FOUND None else ret tt.

Definition delete (ctx : Context) (listId : string) : Store unit :=
  authedProcedure ctx (fun u =>
    ensureListOwnership ctx listId (delete_mutation u listId)).

(** [delete] with other requests served between the guard's read and the
    deletion; [delete] is the case where nothing happens in between. *)
Definition delete_interleaved (env : DB -> DB) (ctx : Context) (listId : string)
    : Store unit :=
  authedProcedure ctx (fun u =>
    ensureListOwnership ctx listId (interleave env;; delete_mutation u listId)).

Definition addToList_mutation (fault : option Exn) (u : User.t)
    (listId bookmarkId : string) : Store unit :=
  list <- findFirst (id_and_owner listId (User.id u));;
  l <- invariant list;;
  if ListType_eqb (BookmarkList.type l) smart
  then throwTRPC BAD_REQUEST (Some "Smart lists cannot be added to")
  else
    try_catch
      (insert_bookmarksInLists fault (BookmarkInList.mk listId bookmarkId))
      (fun e =>
         match e with
         | ESqlite c =>
             if c =? "SQLITE_CONSTRAINT_PRIMARYKEY"
             then throwTRPC BAD_REQUEST
                    (Some ("Bookmark " ++ bookmarkId ++ " is already in the list " ++ listId))
             else ret tt
         | _ => ret tt
         end;;
         throwTRPC INTERNAL_SERVER_ERROR (Some "Something went wrong")).

Definition addToList (fault : option Exn) (ctx : Context)
    (listId bookmarkId : string) : Store unit :=
  authedProcedure ctx (fun u =>
    ensureListOwnership ctx listId
      (ensureBookmarkOwnership ctx bookmarkId
         (addToList_mutation fault u listId bookmarkId))).

Definition removeFromList_mutation (listId bookmarkId : string) : Store unit :=
  changes <- delete_bookmarksInLists (pair_is listId bookmarkId);;
  if (changes =? 0)%nat
  then throwTRPC BAD_REQUEST
         (Some ("Bookmark " ++ bookmarkId ++ " is already not in list " ++ listId))
  else ret tt.

Definition removeFromList (ctx : Context) (listId bookmarkId : string) : Store unit :=
  authedProcedure ctx (fun _ =>
    ensureListOwnership ctx listId
      (ensureBookmarkOwnership ctx bookmarkId
         (removeFromList_mutation listId bookmarkId))).

Definition get_query (u : User.t) (listId : string) : Store ZBookmarkList.t :=
  res <- findFirst (id_and_owner listId (User.id u));;
  match res with
  | None => throwTRPC NOT_FOUND None
  | Some r =>
      ret (ZBookmarkList.mk
             (BookmarkList.id r)
             (BookmarkList.name r)
             (BookmarkList.icon r)
             (BookmarkList.parentId r)
             (BookmarkList.type r)
             (BookmarkList.query r))
  end.

Definition get (ctx : Context) (listId : string) : Store ZBookmarkList.t :=
  authedProcedure ctx (fun u =>
    ensureListOwnership ctx listId (get_query u listId)).

(** [lists.map((l) => l.list.userId)]: reading [userId] of a [null] list
    is a [TypeError]. *)
Fixpoint owners (rows : Datatypes.list (BookmarkInList.t * option BookmarkList.t))
    : option (Datatypes.list string) :=
  match rows with
  | [] => Some []
  | (_, None) :: _ => None
  | (_, Some l) :: rest =>
      match owners rest with
      | Some ids => Some (BookmarkList.userId l :: ids)
      | None => None
      end
  end.

(** [lists.map((l) => l.list)], on rows whose list is known to be set. *)
Fixpoint joined (rows : Datatypes.list (BookmarkInList.t * option BookmarkList.t))
    : Datatypes.list BookmarkList.t :=
  match rows with
  | [] => []
  | (_, Some l) :: rest => l :: joined rest
  | (_, None) :: rest => joined rest
  end.

Definition getListsOfBookmark_query (u : User.t) (bookmarkId : string)
    : Store (Datatypes.list BookmarkList.t) :=
  lists <- findMany_with_list (fun m => BookmarkInList.bookmarkId m =? bookmarkId);;
  match owners lists with
  | None => throw ETypeError
  | Some ids =>
      if forallb (fun id => id =? User.id u) ids
      then ret (joined lists)
      else throw EAssertion
  end.

Definition getListsOfBookmark (ctx : Context) (bookmarkId : string)
    : Store (Datatypes.list BookmarkList.t) :=
  authedProcedure ctx (fun u =>
    ensureBookmarkOwnership ctx bookmarkId (getListsOfBookmark_query u bookmarkId)).

Definition list (ctx : Context) : Store (Datatypes.list BookmarkList.t) :=
  authedProcedure ctx (fun u =>
    findMany (fun l => BookmarkList.userId l =? User.id u)).

End Router.
End listsAppRouter.

(* ------------------------------------------------------------------ *)
(** ** Store invariants and reachable stores *)

(** The number of membership rows for a (list, bookmark) pair. *)
Definition count_pair (db : DB) (listId bookmarkId : string) : nat :=
  length (filter (pair_is listId bookmarkId) (bookmarksInLists db)).

(** Invariant I3, the primary key of [bookmarksInLists]: no pair has more
    than one row. *)
Definition I3 (db : DB) : Prop :=
  forall listId bookmarkId, count_pair db listId bookmarkId <= 1.

(** Does the row reference a list that exists and whose type is manual? *)
Definition references_manual (lists : list BookmarkList.t) (m : BookmarkInList.t) : bool :=
  match find (id_is (BookmarkInList.listId m)) lists with
  | Some l => ListType_eqb (BookmarkList.type l) manual
  | None => false
  end.

(** Invariant I4: a membership row only references a manual list. *)
Definition I4 (db : DB) : Prop :=
  forallb (references_manual (bookmarkLists db)) (bookmarksInLists db) = true.

(** One call of a procedure that can write, with what the environment
    decides for it: the generated id, the fault of the store, and the
    decisions of the bookmark guard at the time of the call. *)
Inductive Call : Type :=
| CallCreate (newId : string) (ctx : Context) (input : NewList.t)
| CallEdit (ctx : Context) (input : EditList.t)
| CallDelete (ctx : Context) (listId : string)
| CallAddToList (authorizeBookmark : Context -> string -> option TRPCError)
    (fault : option Exn) (ctx : Context) (listId bookmarkId : string)
| CallRemoveFromList (authorizeBookmark : Context -> string -> option TRPCError)
    (ctx : Context) (listId bookmarkId : string).

(** The store after the call, whether it returned or threw. *)
Definition after (c : Call) (db : DB) : DB :=
  match c with
  | CallCreate newId ctx input => snd (listsAppRouter.create newId ctx input db)
  | CallEdit ctx input => snd (listsAppRouter.edit ctx input db)
  | CallDelete ctx listId => snd (listsAppRouter.delete ctx listId db)
  | CallAddToList auth fault ctx listId bookmarkId =>
      snd (listsAppRouter.addToList auth fault ctx listId bookmarkId db)
  | CallRemoveFromList auth ctx listId bookmarkId =>
      snd (listsAppRouter.removeFromList auth ctx listId bookmarkId db)
  end.

(** The stores the router can produce from the empty one. *)
Inductive reachable : DB -> Prop :=
| reachable_empty : reachable (mkDB [] [])
| reachable_after : forall c db, reachable db -> reachable (after c db).

(** The guard of [ensureListOwnership] lets caller [u] through for [listId]:
    the list that the lookup finds is owned by [u]. *)
Definition owns (db : DB) (u : User.t) (listId : string) (l : BookmarkList.t) : Prop :=
  find (id_is listId) (bookmarkLists db) = Some l /\
  BookmarkList.userId l = User.id u.

(** The set of an [edit]. *)
Definition edit_set (input : EditList.t) : UpdateSet :=
  mkUpdateSet (EditList.name input) (EditList.icon input)
              (EditList.parentId input) (EditList.query input).

(** The store after the UPDATE of an [edit] by [u]. *)
Definition edited (u : User.t) (input : EditList.t) (db : DB) : DB :=
  mkDB (map (fun x => if id_and_owner (EditList.listId input) (User.id u) x
                      then apply_set (edit_set input) x else x)
            (bookmarkLists db))
       (bookmarksInLists db).

(** The store after the DELETE of a [delete] by [u], cascade included. *)
Definition deleted (u : User.t) (listId : string) (db : DB) : DB :=
  mkDB (filter (fun l => negb (id_and_owner listId (User.id u) l)) (bookmarkLists db))
       (filter (cascade (filter (id_and_owner listId (User.id u)) (bookmarkLists db)))
               (bookmarksInLists db)).

(** The membership rows of a list. *)
Definition members_of (listId : string) (db : DB) : list BookmarkInList.t :=
  filter (fun m => BookmarkInList.listId m =? listId) (bookmarksInLists db).

(** The six fields that [get] copies from a row. *)
Definition fields_of (l : BookmarkList.t) : ZBookmarkList.t :=
  ZBookmarkList.mk
    (BookmarkList.id l) (BookmarkList.name l) (BookmarkList.icon l)
    (BookmarkList.parentId l) (BookmarkList.type l) (BookmarkList.query l).

(** The lists that belong to someone else than [uid], in store order. *)
Definition lists_of_others (uid : string) (db : DB) : list BookmarkList.t :=
  filter (fun x => negb (BookmarkList.userId x =? uid)) (bookmarkLists db).

(** The context a call is made with. *)
Definition caller (c : Call) : Context :=
  match c with
  | CallCreate _ ctx _ => ctx
  | CallEdit ctx _ => ctx
  | CallDelete ctx _ => ctx
  | CallAddToList _ _ ctx _ _ => ctx
  | CallRemoveFromList _ ctx _ _ => ctx
  end.

(** The list whose membership rows a call may write, if any. *)
Definition target (c : Call) : option string :=
  match c with
  | CallCreate _ _ _ => None
  | CallEdit _ _ => None
  | CallDelete _ listId => Some listId
  | CallAddToList _ _ _ listId _ => Some listId
  | CallRemoveFromList _ _ listId _ => Some listId
  end.

(* ------------------------------------------------------------------ *)
(** ** A sample store *)

Module Sample.
Definition alice : User.t := User.mk "alice".
Definition bob : User.t := User.mk "bob".
Definition as_alice : Context := mkContext (Some alice).
Definition as_bob : Context := mkContext (Some bob).
Definition anonymous : Context := mkContext None.

(** A manual list and a smart list of alice, a manual list of bob. *)
Definition reading : BookmarkList.t :=
  BookmarkList.mk "l1" "Reading" "book" None manual None "alice".
Definition recent : BookmarkList.t :=
  BookmarkList.mk "l2" "Recent" "clock" None smart (Some "is:fav") "alice".
Definition recipes : BookmarkList.t :=
  BookmarkList.mk "l3" "Recipes" "pan" None manual None "bob".

(** Bookmark b1 is in alice's manual list. *)
Definition db : DB :=
  mkDB [reading; recent; recipes] [BookmarkInList.mk "l1" "b1"].

(** A store that breaks I4: the smart list has a membership row. *)
Definition db_smart_member : DB :=
  mkDB [reading; recent; recipes] [BookmarkInList.mk "l2" "b1"].

(** A store that breaks the ownership boundary: bookmark b1 of alice is
    in bob's list. *)
Definition db_crossed : DB :=
  mkDB [reading; recent; recipes]
       [BookmarkInList.mk "l1" "b1"; BookmarkInList.mk "l3" "b1"].

(** A bookmark guard that lets every call through. *)
Definition allow : Context -> string -> option TRPCError := fun _ _ => None.


(** A concurrent request that deletes every list. *)
Definition wipe_lists (d : DB) : DB := mkDB [] [].
End Sample.

(** Unfolding the monad on a concrete store. *)
Ltac run :=
  unfold authedProcedure, ensureListOwnership, listsAppRouter.ensureBookmarkOwnership,
    interleave, bind, try_catch, findFirst, findMany, invariant, throwTRPC, throw, ret;
  simpl.

(* ------------------------------------------------------------------ *)
(** ** Lemmas on the store calls *)

Lemma find_none_iff {A} (p : A -> bool) (xs : list A) :
  find p xs = None <-> (forall x, In x xs -> p x = false).
Proof.
  split.
  - intros H x Hx. exact (find_none p xs H x Hx).
  - induction xs as [|a xs IH]; intros H; simpl; [reflexivity|].
    rewrite (H a (or_introl eq_refl)). apply IH.
    intros x Hx. apply H. right. exact Hx.
Qed.

Lemma filter_all {A} (p : A -> bool) (xs : list A) :
  (forall x, In x xs -> p x = true) -> filter p xs = xs.
Proof.
  induction xs as [|a xs IH]; intros H; simpl; [reflexivity|].
  rewrite (H a (or_introl eq_refl)). f_equal. apply IH.
  intros x Hx. apply H. right. exact Hx.
Qed.

Lemma filter_nil_iff {A} (p : A -> bool) (xs : list A) :
  filter p xs = [] <-> (forall x, In x xs -> p x = false).
Proof.
  induction xs as [|a xs IH]; simpl.
  - split; [intros _ x []|reflexivity].
  - destruct (p a) eqn:Ha.
    + split; [discriminate|].
      intros H. rewrite (H a (or_introl eq_refl)) in Ha. discriminate.
    + rewrite IH. split.
      * intros H x [<-|Hx]; [exact Ha|apply H; exact Hx].
      * intros H x Hx. apply H. right. exact Hx.
Qed.

Lemma DB_eta (db : DB) : mkDB (bookmarkLists db) (bookmarksInLists db) = db.
Proof. destruct db; reflexivity. Qed.

(** When the first list with the id is owned by [u], the lookup by id and
    owner finds that same list. *)
Lemma find_id_and_owner (lists : list BookmarkList.t) listId uid l :
  find (id_is listId) lists = Some l ->
  BookmarkList.userId l = uid ->
  find (id_and_owner listId uid) lists = Some l.
Proof.
  induction lists as [|a lists IH]; simpl; [discriminate|].
  unfold id_and_owner, id_is in *.
  destruct (BookmarkList.id a =? listId) eqn:Hid; simpl.
  - intros [= ->] <-. rewrite String.eqb_refl. reflexivity.
  - intros Hf Hu. apply IH; assumption.
Qed.

(* ------------------------------------------------------------------ *)
(** ** The ownership guard *)

(** C1. [ensureListOwnership] decides identity first, existence second and
    ownership third: without a caller it fails [UNAUTHORIZED] whether or
    not the list exists; with a caller and no list of that id it fails
    [NOT_FOUND]; with a list owned by someone else it fails [FORBIDDEN];
    otherwise the guarded operation runs. The store is left as it was by
    each failure. *)
Theorem C1_ensureListOwnership_precedence :
  forall (A : Type) (ctx : Context) (listId : string) (next : Store A) (db : DB),
    (user ctx = None ->
       ensureListOwnership ctx listId next db
       = (Throw (ETRPC (mkTRPCError UNAUTHORIZED (Some "User is not authorized"))), db))
    /\
    (forall u, user ctx = Some u ->
       ((forall l, In l (bookmarkLists db) -> BookmarkList.id l <> listId) ->
          ensureListOwnership ctx listId next db
          = (Throw (ETRPC (mkTRPCError NOT_FOUND (Some "List not found"))), db))
       /\
       (forall l, find (id_is listId) (bookmarkLists db) = Some l ->
          (BookmarkList.userId l <> User.id u ->
             ensureListOwnership ctx listId next db
             = (Throw (ETRPC (mkTRPCError FORBIDDEN
                                (Some "User is not allowed to access resource"))), db))
          /\
          (BookmarkList.userId l = User.id u ->
             ensureListOwnership ctx listId next db = next db))).
Proof.
  intros A ctx listId next db. split.
  - intros Hu. run. rewrite Hu. reflexivity.
  - intros u Hu. split.
    + intros Hnone. run. rewrite Hu.
      assert (Hf : find (id_is listId) (bookmarkLists db) = None).
      { apply find_none_iff. intros l Hl. apply String.eqb_neq. auto. }
      rewrite Hf. reflexivity.
    + intros l Hf. split; intros Ho; run; rewrite Hu, Hf.
      * apply String.eqb_neq in Ho. rewrite Ho. reflexivity.
      * apply String.eqb_eq in Ho. rewrite Ho. reflexivity.
Qed.

Lemma C1_witness :
  ensureListOwnership Sample.anonymous "l9" (ret tt) Sample.db
  = (Throw (ETRPC (mkTRPCError UNAUTHORIZED (Some "User is not authorized"))), Sample.db)
  /\ ensureListOwnership Sample.as_bob "l9" (ret tt) Sample.db
     = (Throw (ETRPC (mkTRPCError NOT_FOUND (Some "List not found"))), Sample.db)
  /\ ensureListOwnership Sample.as_bob "l1" (ret tt) Sample.db
     = (Throw (ETRPC (mkTRPCError FORBIDDEN
                        (Some "User is not allowed to access resource"))), Sample.db)
  /\ ensureListOwnership Sample.as_alice "l1" (ret tt) Sample.db = (Return tt, Sample.db).
Proof.
  split; [|split; [|split]].
  - exact (proj1 (C1_ensureListOwnership_precedence
                    unit Sample.anonymous "l9" (ret tt) Sample.db) eq_refl).
  - apply (proj1 (proj2 (C1_ensureListOwnership_precedence
                           unit Sample.as_bob "l9" (ret tt) Sample.db)
                    Sample.bob eq_refl)).
    simpl. intros l [<-|[<-|[<-|[]]]]; discriminate.
  - apply (proj1 (proj2 (proj2 (C1_ensureListOwnership_precedence
                                  unit Sample.as_bob "l1" (ret tt) Sample.db)
                           Sample.bob eq_refl)
                    Sample.reading eq_refl)).
    discriminate.
  - apply (proj2 (proj2 (proj2 (C1_ensureListOwnership_precedence
                                  unit Sample.as_alice "l1" (ret tt) Sample.db)
                           Sample.alice eq_refl)
                    Sample.reading eq_refl)).
    reflexivity.
Defined.

(** A caller who owns the list goes through the guard. *)
Lemma ensureListOwnership_pass {A} ctx u listId l (next : Store A) db :
  user ctx = Some u ->
  owns db u listId l ->
  ensureListOwnership ctx listId next db = next db.
Proof.
  intros Hu [Hf Ho]. run. rewrite Hu, Hf.
  apply String.eqb_eq in Ho. rewrite Ho. reflexivity.
Qed.

(* ------------------------------------------------------------------ *)
(** ** edit *)


(** What the body of [edit] does with an empty query, should one reach it:
    the empty string is not null and not truthy either, so the type check
    is skipped and the UPDATE stores it. *)
Lemma edit_manual_with_empty_query :
  listsAppRouter.edit Sample.as_alice
    (EditList.mk "l1" None None undefined (value "")) Sample.db
  = (Return (BookmarkList.mk "l1" "Reading" "book" None manual (Some "") "alice"),
     mkDB [BookmarkList.mk "l1" "Reading" "book" None manual (Some "") "alice";
           Sample.recent; Sample.recipes]
          [BookmarkInList.mk "l1" "b1"]).
Proof. reflexivity. Qed.

Section EditInput.

(** [zEditBookmarkListSchemaWithValidation], the schema that [edit] gives
    to [.input]: it is declared with the shared types, outside the router,
    and is taken as a parameter. It is [true] on the inputs that it lets
    through to the body of [edit]. *)
Variable zEditBookmarkListSchemaWithValidation : EditList.t -> bool.

(** The schema lets no empty query through. *)
Hypothesis schema_refuses_empty_query :
  forall input,
    zEditBookmarkListSchemaWithValidation input = true ->
    EditList.query input <> value "".


End EditInput.


Lemma filter_find {A} (p : A -> bool) (xs : list A) (a : A) :
  find p xs = Some a -> exists rest, filter p xs = a :: rest.
Proof.
  induction xs as [|x xs IH]; simpl; [discriminate|].
  destruct (p x).
  - intros [= ->]. eexists. reflexivity.
  - exact IH.
Qed.

(** When the query check lets it through, the owner's [edit] returns the
    updated row. *)
Lemma edit_returns ctx u input l db :
  user ctx = Some u ->
  owns db u (EditList.listId input) l ->
  truthy (EditList.query input) = false \/ BookmarkList.type l = smart ->
  no_values (edit_set input) = false ->
  listsAppRouter.edit ctx input db
  = (Return (apply_set (edit_set input) l), edited u input db).
Proof.
  intros Hu Hown Hq Hnv.
  unfold listsAppRouter.edit, authedProcedure. rewrite Hu.
  rewrite (ensureListOwnership_pass ctx u _ l) by assumption.
  destruct Hown as [Hf Ho].
  pose proof (find_id_and_owner _ _ _ _ Hf Ho) as Hfo.
  destruct (filter_find _ _ _ Hfo) as [rest Hrest].
  unfold listsAppRouter.edit_mutation, update_bookmarkLists, edited.
  fold (edit_set input). rewrite Hnv.
  destruct (truthy (EditList.query input)) eqn:Htr; run.
  - destruct Hq as [Hq|Hq]; [discriminate|].
    rewrite Hfo. simpl. rewrite Hq. simpl. rewrite Hrest. reflexivity.
  - rewrite Hrest. reflexivity.
Qed.

(** An [edit] that returns was made by the owner of the list and passed the
    query check. *)
Lemma edit_return_inv ctx input db r db' :
  listsAppRouter.edit ctx input db = (Return r, db') ->
  exists u l,
    user ctx = Some u /\
    owns db u (EditList.listId input) l /\
    (truthy (EditList.query input) = false \/ BookmarkList.type l = smart) /\
    no_values (edit_set input) = false.
Proof.
  unfold listsAppRouter.edit, authedProcedure.
  destruct (user ctx) as [u|] eqn:Hu; [|discriminate].
  run. rewrite Hu.
  destruct (find (id_is (EditList.listId input)) (bookmarkLists db)) as [l|] eqn:Hf;
    [|discriminate].
  destruct (BookmarkList.userId l =? User.id u) eqn:Ho; simpl; [|discriminate].
  apply String.eqb_eq in Ho.
  intros H. exists u, l. split; [reflexivity|]. split; [split; assumption|].
  unfold listsAppRouter.edit_mutation, update_bookmarkLists in H.
  fold (edit_set input) in H. revert H. run.
  destruct (no_values (edit_set input)).
  - destruct (truthy (EditList.query input)); [|discriminate].
    rewrite (find_id_and_owner _ _ _ _ Hf Ho). simpl.
    destruct (BookmarkList.type l); discriminate.
  - intros H. split; [|reflexivity]. revert H.
    destruct (truthy (EditList.query input)); [|left; reflexivity].
    rewrite (find_id_and_owner _ _ _ _ Hf Ho). simpl.
    destruct (BookmarkList.type l); simpl; [discriminate|right; reflexivity].
Qed.

(** C9. After an [edit] that returns, owner and type are what they were,
    for the edited list and for every list of the store; of the edited
    list only name, icon, parentId and query can differ, and each of these
    keeps its value when the call does not provide it. The membership
    table is not touched. *)
Theorem C9_edit_keeps_owner_and_type :
  forall ctx input db r db',
    listsAppRouter.edit ctx input db = (Return r, db') ->
    exists u l,
      user ctx = Some u /\
      owns db u (EditList.listId input) l /\
      (* the record returned is the list as stored after the call *)
      find (id_is (EditList.listId input)) (bookmarkLists db') = Some r /\
      BookmarkList.id r = BookmarkList.id l /\
      BookmarkList.userId r = BookmarkList.userId l /\
      BookmarkList.type r = BookmarkList.type l /\
      BookmarkList.name r = assign (EditList.name input) (BookmarkList.name l) /\
      BookmarkList.icon r = assign (EditList.icon input) (BookmarkList.icon l) /\
      BookmarkList.parentId r
      = assign_nullable (EditList.parentId input) (BookmarkList.parentId l) /\
      BookmarkList.query r
      = assign_nullable (EditList.query input) (BookmarkList.query l) /\
      (EditList.name input = None -> BookmarkList.name r = BookmarkList.name l) /\
      (EditList.icon input = None -> BookmarkList.icon r = BookmarkList.icon l) /\
      (EditList.parentId input = undefined ->
         BookmarkList.parentId r = BookmarkList.parentId l) /\
      (EditList.query input = undefined ->
         BookmarkList.query r = BookmarkList.query l) /\
      (* the rest of the store *)
      map BookmarkList.id (bookmarkLists db') = map BookmarkList.id (bookmarkLists db) /\
      map BookmarkList.userId (bookmarkLists db')
      = map BookmarkList.userId (bookmarkLists db) /\
      map BookmarkList.type (bookmarkLists db')
      = map BookmarkList.type (bookmarkLists db) /\
      (forall x, In x (bookmarkLists db) ->
         id_and_owner (EditList.listId input) (User.id u) x = false ->
         In x (bookmarkLists db')) /\
      bookmarksInLists db' = bookmarksInLists db.
Proof.
  intros ctx input db r db' H.
  destruct (edit_return_inv _ _ _ _ _ H) as [u [l [Hu [Hown [Hq Hnv]]]]].
  rewrite (edit_returns ctx u input l db Hu Hown Hq Hnv) in H.
  injection H as <- <-.
  exists u, l. split; [exact Hu|]. split; [exact Hown|].
  assert (Hmap : forall (B : Type) (f : BookmarkList.t -> B),
             (forall x, f (apply_set (edit_set input) x) = f x) ->
             map f (bookmarkLists (edited u input db)) = map f (bookmarkLists db)).
  { intros B f Hf. unfold edited. simpl. rewrite map_map. apply map_ext.
    intros x. destruct (id_and_owner _ _ x); [apply Hf|reflexivity]. }
  split.
  { destruct Hown as [Hf Ho]. unfold edited. simpl.
    clear Hmap Hq. revert Hf. induction (bookmarkLists db) as [|x xs IH]; simpl;
      [discriminate|].
    unfold id_and_owner, id_is in *.
    destruct (BookmarkList.id x =? EditList.listId input) eqn:Hid; simpl.
    - intros [= ->]. apply String.eqb_eq in Ho. rewrite Ho. simpl.
      rewrite Hid. reflexivity.
    - rewrite Hid. exact IH. }
  repeat (split; [reflexivity|]).
  split; [intros E; simpl; rewrite E; reflexivity|].
  split; [intros E; simpl; rewrite E; reflexivity|].
  split; [intros E; simpl; rewrite E; reflexivity|].
  split; [intros E; simpl; rewrite E; reflexivity|].
  split; [apply Hmap; reflexivity|].
  split; [apply Hmap; reflexivity|].
  split; [apply Hmap; reflexivity|].
  split; [|reflexivity].
  intros x Hx Hw. unfold edited. simpl. apply in_map_iff.
  exists x. rewrite Hw. split; [reflexivity|exact Hx].
Qed.

Lemma C9_witness :
  map BookmarkList.userId
      (bookmarkLists
         (snd (listsAppRouter.edit Sample.as_alice
                 (EditList.mk "l1" (Some "Read later") None undefined undefined)
                 Sample.db)))
  = ["alice"; "alice"; "bob"].
Proof.
  destruct (C9_edit_keeps_owner_and_type Sample.as_alice
              (EditList.mk "l1" (Some "Read later") None undefined undefined)
              Sample.db
              (BookmarkList.mk "l1" "Read later" "book" None manual None "alice")
              (mkDB [BookmarkList.mk "l1" "Read later" "book" None manual None "alice";
                     Sample.recent; Sample.recipes]
                    [BookmarkInList.mk "l1" "b1"])
              eq_refl) as [u [l H]].
  decompose [and] H. assumption.
Defined.

(* ------------------------------------------------------------------ *)
(** ** create *)

(** C8. [create] by an authenticated caller, with a freshly generated id,
    stores one new row whose owner is the caller and whose name, icon,
    parentId, type and query are the ones given, and returns that row with
    its id. Nothing is checked about type and query: a manual list with a
    query is stored like any other. *)
Theorem C8_create_persists_as_given :
  forall newId ctx u input db,
    user ctx = Some u ->
    (forall l, In l (bookmarkLists db) -> BookmarkList.id l <> newId) ->
    let stored :=
      BookmarkList.mk newId
        (NewList.name input) (NewList.icon input)
        (column (NewList.parentId input))
        (NewList.type input)
        (column (NewList.query input))
        (User.id u) in
    listsAppRouter.create newId ctx input db
    = (Return stored, mkDB (bookmarkLists db ++ [stored]) (bookmarksInLists db)).
Proof.
  intros newId ctx u input db Hu Hfresh stored.
  unfold listsAppRouter.create, authedProcedure. rewrite Hu.
  unfold listsAppRouter.create_mutation, insert_bookmarkLists. run.
  assert (Hex : existsb (id_is newId) (bookmarkLists db) = false).
  { destruct (existsb (id_is newId) (bookmarkLists db)) eqn:E; [|reflexivity].
    apply existsb_exists in E. destruct E as [l [Hl Hid]].
    apply String.eqb_eq in Hid. destruct (Hfresh l Hl Hid). }
  rewrite Hex. reflexivity.
Qed.

Lemma C8_witness :
  listsAppRouter.create "l4" Sample.as_bob
    (NewList.mk "Inbox" "tray" null manual (value "is:fav")) Sample.db
  = (Return (BookmarkList.mk "l4" "Inbox" "tray" None manual (Some "is:fav") "bob"),
     mkDB [Sample.reading; Sample.recent; Sample.recipes;
           BookmarkList.mk "l4" "Inbox" "tray" None manual (Some "is:fav") "bob"]
          [BookmarkInList.mk "l1" "b1"]).
Proof.
  apply (C8_create_persists_as_given "l4" Sample.as_bob Sample.bob
           (NewList.mk "Inbox" "tray" null manual (value "is:fav")) Sample.db).
  - reflexivity.
  - simpl. intros l [<-|[<-|[<-|[]]]]; discriminate.
Defined.

(* ------------------------------------------------------------------ *)
(** ** delete *)

Lemma cascade_nil (m : BookmarkInList.t) : cascade [] m = true.
Proof. reflexivity. Qed.

(** Every row that the DELETE of a [delete] removes has the id asked for. *)
Lemma cascade_deleted u listId lists m :
  filter (id_and_owner listId (User.id u)) lists <> [] ->
  cascade (filter (id_and_owner listId (User.id u)) lists) m
  = negb (BookmarkInList.listId m =? listId).
Proof.
  intros Hne. unfold cascade. f_equal.
  destruct (BookmarkInList.listId m =? listId) eqn:E.
  - apply String.eqb_eq in E. subst listId.
    destruct (filter _ lists) as [|x xs] eqn:Hx; [destruct (Hne eq_refl)|].
    assert (Hin : In x (filter (id_and_owner (BookmarkInList.listId m) (User.id u)) lists))
      by (rewrite Hx; left; reflexivity).
    apply filter_In in Hin. destruct Hin as [_ Hw].
    unfold id_and_owner in Hw. apply andb_prop in Hw. destruct Hw as [Hid _].
    simpl. unfold id_is. rewrite Hid. reflexivity.
  - destruct (existsb _ _) eqn:Hex; [|reflexivity].
    apply existsb_exists in Hex. destruct Hex as [x [Hin Hid]].
    apply filter_In in Hin. destruct Hin as [_ Hw].
    unfold id_and_owner in Hw. apply andb_prop in Hw. destruct Hw as [Hid' _].
    unfold id_is in Hid. apply String.eqb_eq in Hid, Hid'.
    rewrite <- Hid, Hid' in E. rewrite String.eqb_refl in E. discriminate.
Qed.

(** The deletion proper, on any store: [NOT_FOUND] when no row has the id
    and the owner, the rows removed otherwise. *)
Lemma delete_mutation_run u listId db :
  listsAppRouter.delete_mutation u listId db
  = match filter (id_and_owner listId (User.id u)) (bookmarkLists db) with
    | [] => (Throw (ETRPC (mkTRPCError NOT_FOUND None)), db)
    | _ :: _ => (Return tt, deleted u listId db)
    end.
Proof.
  unfold listsAppRouter.delete_mutation, delete_bookmarkLists, deleted. run.
  destruct (filter (id_and_owner listId (User.id u)) (bookmarkLists db)) as [|x xs] eqn:E.
  - simpl. f_equal.
    rewrite (filter_all (cascade [])) by (intros; apply cascade_nil).
    rewrite filter_all; [apply DB_eta|].
    intros l Hl. apply negb_true_iff.
    exact (proj1 (filter_nil_iff _ _) E l Hl).
  - reflexivity.
Qed.

Lemma members_of_deleted u listId db :
  filter (id_and_owner listId (User.id u)) (bookmarkLists db) <> [] ->
  members_of listId (deleted u listId db) = [].
Proof.
  intros Hne. unfold members_of, deleted. simpl.
  apply filter_nil_iff. intros m Hm.
  apply filter_In in Hm. destruct Hm as [_ Hc].
  rewrite (cascade_deleted u listId _ m Hne) in Hc.
  apply negb_true_iff. exact Hc.
Qed.

Lemma owner_row_matches db u listId l :
  owns db u listId l ->
  filter (id_and_owner listId (User.id u)) (bookmarkLists db) <> [].
Proof.
  intros [Hf Ho] E.
  pose proof (find_id_and_owner _ _ _ _ Hf Ho) as Hfo.
  destruct (filter_find _ _ _ Hfo) as [rest Hrest].
  rewrite Hrest in E. discriminate.
Qed.

(** A [delete] that returns removed at least one row, as the caller. *)
Lemma delete_return_inv ctx listId db db' :
  listsAppRouter.delete ctx listId db = (Return tt, db') ->
  exists u,
    user ctx = Some u /\
    filter (id_and_owner listId (User.id u)) (bookmarkLists db) <> [] /\
    db' = deleted u listId db.
Proof.
  unfold listsAppRouter.delete, authedProcedure.
  destruct (user ctx) as [u|] eqn:Hu; [|discriminate].
  unfold ensureListOwnership, bind at 1, findFirst. rewrite Hu.
  destruct (find (id_is listId) (bookmarkLists db)) as [l|]; [|discriminate].
  destruct (negb _); [discriminate|].
  rewrite delete_mutation_run.
  destruct (filter _ _) eqn:E; cbv iota; [discriminate|].
  intros [= <-]. exists u. split; [reflexivity|].
  split; [rewrite E; discriminate|reflexivity].
Qed.

(** C6. The owner's [delete] of a list returns, and after any [delete] that
    returns no membership row references the list: none can be queried by
    its id. Rows of other lists stay. *)
Theorem C6_delete_leaves_no_membership :
  forall ctx listId db,
    (forall u l, user ctx = Some u -> owns db u listId l ->
       listsAppRouter.delete ctx listId db = (Return tt, deleted u listId db))
    /\
    (forall db', listsAppRouter.delete ctx listId db = (Return tt, db') ->
       members_of listId db' = []
       /\ (forall m, In m (bookmarksInLists db') -> BookmarkInList.listId m <> listId)
       /\ (forall m, In m (bookmarksInLists db) -> BookmarkInList.listId m <> listId ->
             In m (bookmarksInLists db'))).
Proof.
  intros ctx listId db. split.
  - intros u l Hu Hown.
    unfold listsAppRouter.delete, authedProcedure. rewrite Hu.
    rewrite (ensureListOwnership_pass ctx u listId l) by assumption.
    rewrite delete_mutation_run.
    pose proof (owner_row_matches _ _ _ _ Hown) as Hne.
    destruct (filter _ _); [destruct (Hne eq_refl)|reflexivity].
  - intros db' H. apply delete_return_inv in H.
    destruct H as [u [Hu [Hne ->]]].
    pose proof (members_of_deleted u listId db Hne) as Hnil.
    split; [exact Hnil|]. split.
    + intros m Hm E.
      pose proof (proj1 (filter_nil_iff _ _) Hnil m Hm) as Hf.
      simpl in Hf. rewrite E, String.eqb_refl in Hf. discriminate.
    + intros m Hm Hid. unfold deleted. simpl. apply filter_In. split; [exact Hm|].
      rewrite (cascade_deleted u listId _ m Hne).
      apply negb_true_iff. apply String.eqb_neq. exact Hid.
Qed.

Lemma C6_witness :
  listsAppRouter.delete Sample.as_alice "l1" Sample.db
  = (Return tt, mkDB [Sample.recent; Sample.recipes] [])
  /\ members_of "l1" (mkDB [Sample.recent; Sample.recipes] []) = [].
Proof.
  pose proof (C6_delete_leaves_no_membership Sample.as_alice "l1" Sample.db) as [H1 H2].
  split.
  - exact (H1 Sample.alice Sample.reading eq_refl (conj eq_refl eq_refl)).
  - exact (proj1 (H2 (mkDB [Sample.recent; Sample.recipes] []) eq_refl)).
Defined.

(** C7. [delete] removes the rows that have the id and the caller as
    owner, and only those. When other requests run between the guard and
    the deletion and no such row is left, zero rows are affected and the
    call fails [NOT_FOUND], the store being what the other requests made
    of it; otherwise it returns. *)
Theorem C7_delete_zero_rows_is_not_found :
  forall env ctx u listId l db,
    user ctx = Some u ->
    owns db u listId l ->
    (filter (id_and_owner listId (User.id u)) (bookmarkLists (env db)) = [] ->
       listsAppRouter.delete_interleaved env ctx listId db
       = (Throw (ETRPC (mkTRPCError NOT_FOUND None)), env db))
    /\
    (filter (id_and_owner listId (User.id u)) (bookmarkLists (env db)) <> [] ->
       listsAppRouter.delete_interleaved env ctx listId db
       = (Return tt, deleted u listId (env db))
       /\ (forall x, In x (bookmarkLists (deleted u listId (env db))) <->
             In x (bookmarkLists (env db)) /\
             ~ (BookmarkList.id x = listId /\ BookmarkList.userId x = User.id u))).
Proof.
  intros env ctx u listId l db Hu Hown.
  assert (Hrun : listsAppRouter.delete_interleaved env ctx listId db
                 = listsAppRouter.delete_mutation u listId (env db)).
  { unfold listsAppRouter.delete_interleaved, authedProcedure. rewrite Hu.
    rewrite (ensureListOwnership_pass ctx u listId l) by assumption.
    reflexivity. }
  rewrite Hrun, delete_mutation_run. split.
  - intros E. rewrite E. reflexivity.
  - intros Hne. split.
    + destruct (filter _ _); [destruct (Hne eq_refl)|reflexivity].
    + intros x. unfold deleted. simpl. rewrite filter_In.
      unfold id_and_owner. rewrite negb_true_iff, andb_false_iff.
      rewrite !String.eqb_neq. split.
      * intros [Hx Hor]. split; [exact Hx|]. intros [H1 H2]. destruct Hor; auto.
      * intros [Hx Hn]. split; [exact Hx|].
        destruct (String.eqb_spec (BookmarkList.id x) listId) as [E1|E1];
          [|left; exact E1].
        right. intros E2. apply Hn. split; assumption.
Qed.

Lemma C7_witness :
  listsAppRouter.delete_interleaved Sample.wipe_lists Sample.as_alice "l1" Sample.db
  = (Throw (ETRPC (mkTRPCError NOT_FOUND None)), mkDB [] [])
  /\ listsAppRouter.delete_interleaved (fun d => d) Sample.as_alice "l1" Sample.db
     = (Return tt, mkDB [Sample.recent; Sample.recipes] []).
Proof.
  split.
  - exact (proj1 (C7_delete_zero_rows_is_not_found Sample.wipe_lists Sample.as_alice
                    Sample.alice "l1" Sample.reading Sample.db
                    eq_refl (conj eq_refl eq_refl)) eq_refl).
  - apply (proj2 (C7_delete_zero_rows_is_not_found (fun d => d) Sample.as_alice
                    Sample.alice "l1" Sample.reading Sample.db
                    eq_refl (conj eq_refl eq_refl))).
    discriminate.
Defined.

(* ------------------------------------------------------------------ *)
(** ** Membership: addToList, removeFromList, getListsOfBookmark *)

Lemma existsb_count {A} (p : A -> bool) (xs : list A) :
  existsb p xs = negb (length (filter p xs) =? 0)%nat.
Proof.
  induction xs as [|a xs IH]; simpl; [reflexivity|].
  destruct (p a); simpl; [reflexivity|exact IH].
Qed.

Lemma filter_split_length {A} (p : A -> bool) (xs : list A) :
  length (filter p xs) + length (filter (fun x => negb (p x)) xs) = length xs.
Proof.
  induction xs as [|a xs IH]; simpl; [reflexivity|].
  destruct (p a); simpl; lia.
Qed.

Lemma pair_is_refl listId bookmarkId :
  pair_is listId bookmarkId (BookmarkInList.mk listId bookmarkId) = true.
Proof. unfold pair_is. simpl. rewrite !String.eqb_refl. reflexivity. Qed.

Lemma count_pair_inserted db listId bookmarkId :
  count_pair (mkDB (bookmarkLists db)
                   (bookmarksInLists db ++ [BookmarkInList.mk listId bookmarkId]))
             listId bookmarkId
  = S (count_pair db listId bookmarkId).
Proof.
  unfold count_pair. simpl. rewrite filter_app, length_app. simpl.
  rewrite pair_is_refl. simpl. lia.
Qed.

(** Under I4 a smart list has no membership row. *)
Lemma I4_smart_has_no_member db listId l bookmarkId :
  I4 db ->
  find (id_is listId) (bookmarkLists db) = Some l ->
  BookmarkList.type l = smart ->
  count_pair db listId bookmarkId = 0.
Proof.
  intros HI4 Hf Hty. unfold count_pair.
  apply length_zero_iff_nil, filter_nil_iff. intros m Hm.
  unfold I4 in HI4. rewrite forallb_forall in HI4. specialize (HI4 m Hm).
  unfold pair_is. destruct (BookmarkInList.listId m =? listId) eqn:E; [|reflexivity].
  apply String.eqb_eq in E. unfold references_manual in HI4.
  rewrite E, Hf, Hty in HI4. discriminate.
Qed.

(** The removal proper, on any store. *)
Lemma removeFromList_mutation_run listId bookmarkId db :
  listsAppRouter.removeFromList_mutation listId bookmarkId db
  = if (count_pair db listId bookmarkId =? 0)%nat
    then (Throw (ETRPC (mkTRPCError BAD_REQUEST
                          (Some ("Bookmark " ++ bookmarkId
                                 ++ " is already not in list " ++ listId)))),
          db)
    else (Return tt,
          mkDB (bookmarkLists db)
               (filter (fun m => negb (pair_is listId bookmarkId m)) (bookmarksInLists db))).
Proof.
  unfold listsAppRouter.removeFromList_mutation, delete_bookmarksInLists, count_pair. run.
  destruct (length (filter (pair_is listId bookmarkId) (bookmarksInLists db)) =? 0)%nat
    eqn:E; [|reflexivity].
  simpl. f_equal. rewrite filter_all; [apply DB_eta|].
  intros m Hm. apply negb_true_iff.
  apply Nat.eqb_eq, length_zero_iff_nil in E.
  exact (proj1 (filter_nil_iff _ _) E m Hm).
Qed.

Section Membership.

Variable authorizeBookmark : Context -> string -> option TRPCError.

Lemma addToList_guarded fault ctx u listId bookmarkId l db :
  user ctx = Some u ->
  owns db u listId l ->
  authorizeBookmark ctx bookmarkId = None ->
  listsAppRouter.addToList authorizeBookmark fault ctx listId bookmarkId db
  = listsAppRouter.addToList_mutation fault u listId bookmarkId db.
Proof.
  intros Hu Hown Hb.
  unfold listsAppRouter.addToList, authedProcedure. rewrite Hu.
  rewrite (ensureListOwnership_pass ctx u listId l) by assumption.
  unfold listsAppRouter.ensureBookmarkOwnership. rewrite Hb. reflexivity.
Qed.

Lemma removeFromList_guarded ctx u listId bookmarkId l db :
  user ctx = Some u ->
  owns db u listId l ->
  authorizeBookmark ctx bookmarkId = None ->
  listsAppRouter.removeFromList authorizeBookmark ctx listId bookmarkId db
  = listsAppRouter.removeFromList_mutation listId bookmarkId db.
Proof.
  intros Hu Hown Hb.
  unfold listsAppRouter.removeFromList, authedProcedure. rewrite Hu.
  rewrite (ensureListOwnership_pass ctx u listId l) by assumption.
  unfold listsAppRouter.ensureBookmarkOwnership. rewrite Hb. reflexivity.
Qed.

(** The insertion proper on a manual list owned by the caller. *)
Lemma addToList_mutation_manual fault u listId bookmarkId l db :
  owns db u listId l ->
  BookmarkList.type l = manual ->
  listsAppRouter.addToList_mutation fault u listId bookmarkId db
  = match fault with
    | Some e =>
        if match e with
           | ESqlite c => c =? "SQLITE_CONSTRAINT_PRIMARYKEY"
           | _ => false
           end
        then (Throw (ETRPC (mkTRPCError BAD_REQUEST
                              (Some ("Bookmark " ++ bookmarkId
                                     ++ " is already in the list " ++ listId)))), db)
        else (Throw (ETRPC (mkTRPCError INTERNAL_SERVER_ERROR
                              (Some "Something went wrong"))), db)
    | None =>
        if (count_pair db listId bookmarkId =? 0)%nat
        then (Return tt,
              mkDB (bookmarkLists db)
                   (bookmarksInLists db ++ [BookmarkInList.mk listId bookmarkId]))
        else (Throw (ETRPC (mkTRPCError BAD_REQUEST
                              (Some ("Bookmark " ++ bookmarkId
                                     ++ " is already in the list " ++ listId)))), db)
    end.
Proof.
  intros [Hf Ho] Hty.
  unfold listsAppRouter.addToList_mutation, insert_bookmarksInLists. run.
  rewrite (find_id_and_owner _ _ _ _ Hf Ho). simpl. rewrite Hty. simpl.
  destruct fault as [e|].
  - destruct e as [t|c| | | |w]; try reflexivity.
    destruct (c =? "SQLITE_CONSTRAINT_PRIMARYKEY"); reflexivity.
  - rewrite existsb_count. unfold count_pair.
    destruct (length _ =? 0)%nat; reflexivity.
Qed.

(** [addToList] looks at the type of the list before it writes. *)
Lemma addToList_on_smart fault ctx u listId bookmarkId l db :
  user ctx = Some u ->
  owns db u listId l ->
  authorizeBookmark ctx bookmarkId = None ->
  BookmarkList.type l = smart ->
  listsAppRouter.addToList authorizeBookmark fault ctx listId bookmarkId db
  = (Throw (ETRPC (mkTRPCError BAD_REQUEST (Some "Smart lists cannot be added to"))),
     db).
Proof.
  intros Hu Hown Hb Hty.
  rewrite (addToList_guarded fault ctx u listId bookmarkId l db) by assumption.
  destruct Hown as [Hf Ho].
  unfold listsAppRouter.addToList_mutation. run.
  rewrite (find_id_and_owner _ _ _ _ Hf Ho). simpl. rewrite Hty. reflexivity.
Qed.

(** [removeFromList] only looks at the rows of the pair. *)
Lemma removeFromList_without_row ctx u listId bookmarkId l db :
  user ctx = Some u ->
  owns db u listId l ->
  authorizeBookmark ctx bookmarkId = None ->
  count_pair db listId bookmarkId = 0 ->
  listsAppRouter.removeFromList authorizeBookmark ctx listId bookmarkId db
  = (Throw (ETRPC (mkTRPCError BAD_REQUEST
                     (Some ("Bookmark " ++ bookmarkId
                            ++ " is already not in list " ++ listId)))),
     db).
Proof.
  intros Hu Hown Hb Hc.
  rewrite (removeFromList_guarded ctx u listId bookmarkId l db) by assumption.
  rewrite removeFromList_mutation_run, Hc. reflexivity.
Qed.

(** C3. In a store that satisfies I4, for a list stored as smart and a
    caller who passes both guards, [addToList] and [removeFromList] both
    fail [BAD_REQUEST] and leave the store, hence the membership table,
    as it was. [addToList] is rejected on the type of the list;
    [removeFromList] finds no row to delete, as I4 leaves a smart list
    without rows. *)
Theorem C3_smart_list_rejects_membership_calls :
  forall fault ctx u listId bookmarkId l db,
    I4 db ->
    user ctx = Some u ->
    owns db u listId l ->
    authorizeBookmark ctx bookmarkId = None ->
    BookmarkList.type l = smart ->
    listsAppRouter.addToList authorizeBookmark fault ctx listId bookmarkId db
    = (Throw (ETRPC (mkTRPCError BAD_REQUEST (Some "Smart lists cannot be added to"))),
       db)
    /\
    listsAppRouter.removeFromList authorizeBookmark ctx listId bookmarkId db
    = (Throw (ETRPC (mkTRPCError BAD_REQUEST
                       (Some ("Bookmark " ++ bookmarkId
                              ++ " is already not in list " ++ listId)))),
       db).
Proof.
  intros fault ctx u listId bookmarkId l db HI4 Hu Hown Hb Hty. split.
  - apply (addToList_on_smart fault ctx u listId bookmarkId l db); assumption.
  - apply (removeFromList_without_row ctx u listId bookmarkId l db); try assumption.
    destruct Hown as [Hf _].
    exact (I4_smart_has_no_member db listId l bookmarkId HI4 Hf Hty).
Qed.

(** C4. [addToList] on a manual list by a caller who passes both guards:
    when the pair already has its row the insert is refused by the
    primary key, the call fails [BAD_REQUEST] (already in the list) and
    the pair still has its one row; the primary-key signal of the store
    is always answered with that [BAD_REQUEST]; when the store fails in
    any other way the call fails [INTERNAL_SERVER_ERROR]; otherwise the
    call returns and the table has gained the row of the pair and
    nothing else. *)
Theorem C4_addToList_insert_outcomes :
  forall ctx u listId bookmarkId l db,
    user ctx = Some u ->
    owns db u listId l ->
    authorizeBookmark ctx bookmarkId = None ->
    BookmarkList.type l = manual ->
    (count_pair db listId bookmarkId = 1 ->
       listsAppRouter.addToList authorizeBookmark None ctx listId bookmarkId db
       = (Throw (ETRPC (mkTRPCError BAD_REQUEST
                          (Some ("Bookmark " ++ bookmarkId
                                 ++ " is already in the list " ++ listId)))), db)
       /\ count_pair
            (snd (listsAppRouter.addToList authorizeBookmark None ctx
                    listId bookmarkId db))
            listId bookmarkId = 1)
    /\
    listsAppRouter.addToList authorizeBookmark
      (Some (ESqlite "SQLITE_CONSTRAINT_PRIMARYKEY")) ctx listId bookmarkId db
    = (Throw (ETRPC (mkTRPCError BAD_REQUEST
                       (Some ("Bookmark " ++ bookmarkId
                              ++ " is already in the list " ++ listId)))), db)
    /\
    (forall e, e <> ESqlite "SQLITE_CONSTRAINT_PRIMARYKEY" ->
       listsAppRouter.addToList authorizeBookmark (Some e) ctx listId bookmarkId db
       = (Throw (ETRPC (mkTRPCError INTERNAL_SERVER_ERROR
                          (Some "Something went wrong"))), db))
    /\
    (count_pair db listId bookmarkId = 0 ->
       listsAppRouter.addToList authorizeBookmark None ctx listId bookmarkId db
       = (Return tt,
          mkDB (bookmarkLists db)
               (bookmarksInLists db ++ [BookmarkInList.mk listId bookmarkId]))
       /\ count_pair
            (snd (listsAppRouter.addToList authorizeBookmark None ctx
                    listId bookmarkId db))
            listId bookmarkId = 1).
Proof.
  intros ctx u listId bookmarkId l db Hu Hown Hb Hty.
  assert (Hrun : forall fault,
             listsAppRouter.addToList authorizeBookmark fault ctx listId bookmarkId db
             = listsAppRouter.addToList_mutation fault u listId bookmarkId db).
  { intros fault. apply (addToList_guarded fault ctx u listId bookmarkId l db);
      assumption. }
  rewrite !Hrun.
  rewrite (addToList_mutation_manual None u listId bookmarkId l db Hown Hty).
  split; [|split; [|split]].
  - intros Hc. rewrite Hc. simpl. split; [reflexivity|exact Hc].
  - rewrite (addToList_mutation_manual _ u listId bookmarkId l db Hown Hty).
    reflexivity.
  - intros e He. rewrite Hrun.
    rewrite (addToList_mutation_manual (Some e) u listId bookmarkId l db Hown Hty).
    destruct e as [t|c| | | |w]; try reflexivity.
    destruct (String.eqb_spec c "SQLITE_CONSTRAINT_PRIMARYKEY") as [->|Hn];
      [destruct (He eq_refl)|reflexivity].
  - intros Hc. rewrite Hc. simpl. split; [reflexivity|].
    rewrite count_pair_inserted, Hc. reflexivity.
Qed.

(** C5. [removeFromList] by a caller who passes both guards: when the
    pair has no row the call fails [BAD_REQUEST] (already not in list),
    not [NOT_FOUND], and the store is as it was; when the pair has its
    row the call returns, that row is gone, the table is one row shorter
    and every other row is still there; the lists are not touched. *)
Theorem C5_removeFromList_outcomes :
  forall ctx u listId bookmarkId l db,
    user ctx = Some u ->
    owns db u listId l ->
    authorizeBookmark ctx bookmarkId = None ->
    (count_pair db listId bookmarkId = 0 ->
       listsAppRouter.removeFromList authorizeBookmark ctx listId bookmarkId db
       = (Throw (ETRPC (mkTRPCError BAD_REQUEST
                          (Some ("Bookmark " ++ bookmarkId
                                 ++ " is already not in list " ++ listId)))), db))
    /\
    (count_pair db listId bookmarkId = 1 ->
       exists db',
         listsAppRouter.removeFromList authorizeBookmark ctx listId bookmarkId db
         = (Return tt, db')
         /\ bookmarkLists db' = bookmarkLists db
         /\ count_pair db' listId bookmarkId = 0
         /\ S (length (bookmarksInLists db')) = length (bookmarksInLists db)
         /\ (forall m, In m (bookmarksInLists db') <->
               In m (bookmarksInLists db) /\
               m <> BookmarkInList.mk listId bookmarkId)).
Proof.
  intros ctx u listId bookmarkId l db Hu Hown Hb.
  split; intros Hc.
  - apply (removeFromList_without_row ctx u listId bookmarkId l db); assumption.
  - rewrite (removeFromList_guarded ctx u listId bookmarkId l db) by assumption.
    rewrite removeFromList_mutation_run, Hc. simpl.
    eexists. split; [reflexivity|]. simpl. split; [reflexivity|]. split; [|split].
    + unfold count_pair. simpl. apply length_zero_iff_nil, filter_nil_iff.
      intros m Hm. apply filter_In in Hm. destruct Hm as [_ Hm].
      apply negb_true_iff. exact Hm.
    + pose proof (filter_split_length (pair_is listId bookmarkId)
                    (bookmarksInLists db)) as Hlen.
      unfold count_pair in Hc. lia.
    + intros m. rewrite filter_In, negb_true_iff. unfold pair_is.
      rewrite andb_false_iff, !String.eqb_neq. destruct m as [ml mb]. simpl.
      split; intros [Hin Hne]; (split; [exact Hin|]).
      * intros [= -> ->]. destruct Hne as [Hne|Hne]; apply Hne; reflexivity.
      * destruct (String.eqb_spec ml listId) as [->|E1]; [|left; exact E1].
        right. intros ->. apply Hne. reflexivity.
Qed.

End Membership.

(** [removeFromList] itself does not look at the type of the list: in a
    store that breaks I4 the row of a smart list is removed. *)
Lemma removeFromList_has_no_type_check :
  BookmarkList.type Sample.recent = smart
  /\ listsAppRouter.removeFromList Sample.allow Sample.as_alice "l2" "b1"
       Sample.db_smart_member
     = (Return tt, mkDB [Sample.reading; Sample.recent; Sample.recipes] []).
Proof. split; reflexivity. Qed.

Lemma owners_all_owned rows ids uid :
  listsAppRouter.owners rows = Some ids ->
  forallb (fun id => id =? uid) ids = true ->
  Forall (fun l => BookmarkList.userId l = uid) (listsAppRouter.joined rows)
  /\ length (listsAppRouter.joined rows) = length rows.
Proof.
  revert ids. induction rows as [|[m [l|]] rows IH]; simpl; intros ids Ho Hall.
  - split; [constructor|reflexivity].
  - destruct (listsAppRouter.owners rows) as [ids'|]; [|discriminate].
    injection Ho as <-. simpl in Hall. apply andb_prop in Hall.
    destruct Hall as [Hl Hall]. destruct (IH ids' eq_refl Hall) as [IH1 IH2].
    split; [|simpl; rewrite IH2; reflexivity].
    constructor; [apply String.eqb_eq; exact Hl|exact IH1].
  - discriminate.
Qed.

Lemma owners_foreign rows ids uid m l :
  listsAppRouter.owners rows = Some ids ->
  In (m, Some l) rows ->
  BookmarkList.userId l <> uid ->
  forallb (fun id => id =? uid) ids = false.
Proof.
  revert ids. induction rows as [|[m' [l'|]] rows IH]; simpl; intros ids Ho Hin Hne.
  - destruct Hin.
  - destruct (listsAppRouter.owners rows) as [ids'|]; [|discriminate].
    injection Ho as <-. simpl. destruct Hin as [[= -> ->]|Hin].
    + apply String.eqb_neq in Hne. rewrite Hne. reflexivity.
    + rewrite (IH ids' eq_refl Hin Hne). apply andb_false_r.
  - discriminate.
Qed.

Lemma owners_total rows :
  (forall m o, In (m, o) rows -> o <> None) ->
  listsAppRouter.owners rows <> None.
Proof.
  induction rows as [|[m [l|]] rows IH]; simpl; intros H.
  - discriminate.
  - destruct (listsAppRouter.owners rows); [discriminate|].
    apply IH. intros m' o Hin. apply (H m' o). right. exact Hin.
  - destruct (H m None (or_introl eq_refl) eq_refl).
Qed.

Section Listing.

Variable authorizeBookmark : Context -> string -> option TRPCError.

(** C10. A [getListsOfBookmark] that returns gives one list per
    membership row of the bookmark, none left out, and each of them is
    owned by the caller; the store is as it was. When a list joined to
    the bookmark has another owner the call does not return: it throws,
    which the caller sees as [Internal]; the exception is the failed
    assertion whenever every row of the bookmark references an existing
    list. *)
Theorem C10_getListsOfBookmark_owner_check :
  forall ctx bookmarkId db,
    (forall lists db',
       listsAppRouter.getListsOfBookmark authorizeBookmark ctx bookmarkId db
       = (Return lists, db') ->
       db' = db
       /\ length lists
          = length (filter (fun m => BookmarkInList.bookmarkId m =? bookmarkId)
                           (bookmarksInLists db))
       /\ exists u, user ctx = Some u
                    /\ Forall (fun l => BookmarkList.userId l = User.id u) lists)
    /\
    (forall u m l,
       user ctx = Some u ->
       authorizeBookmark ctx bookmarkId = None ->
       In m (bookmarksInLists db) ->
       BookmarkInList.bookmarkId m = bookmarkId ->
       find (id_is (BookmarkInList.listId m)) (bookmarkLists db) = Some l ->
       BookmarkList.userId l <> User.id u ->
       exists e,
         listsAppRouter.getListsOfBookmark authorizeBookmark ctx bookmarkId db
         = (Throw e, db)
         /\ kindOf e = Internal
         /\ ((forall m', In m' (bookmarksInLists db) ->
                find (id_is (BookmarkInList.listId m')) (bookmarkLists db) <> None) ->
             e = EAssertion)).
Proof.
  intros ctx bookmarkId db. split.
  - intros lists db'.
    unfold listsAppRouter.getListsOfBookmark, authedProcedure.
    destruct (user ctx) as [u|] eqn:Hu; [|discriminate].
    unfold listsAppRouter.ensureBookmarkOwnership.
    destruct (authorizeBookmark ctx bookmarkId); [discriminate|].
    unfold listsAppRouter.getListsOfBookmark_query, findMany_with_list. run.
    destruct (listsAppRouter.owners _) as [ids|] eqn:Ho; [|discriminate].
    destruct (forallb _ ids) eqn:Hall; [|discriminate].
    intros [= <- <-].
    destruct (owners_all_owned _ _ _ Ho Hall) as [H1 H2].
    split; [reflexivity|]. split.
    + rewrite H2, length_map. reflexivity.
    + exists u. split; [reflexivity|exact H1].
  - intros u m l Hu Hb Hm Hbm Hf Hne.
    unfold listsAppRouter.getListsOfBookmark, authedProcedure. rewrite Hu.
    unfold listsAppRouter.ensureBookmarkOwnership. rewrite Hb.
    unfold listsAppRouter.getListsOfBookmark_query, findMany_with_list. run.
    set (rows := map _ (filter _ (bookmarksInLists db))).
    assert (Hin : In (m, Some l) rows).
    { unfold rows. apply in_map_iff. exists m. rewrite Hf. split; [reflexivity|].
      apply filter_In. split; [exact Hm|]. apply String.eqb_eq. exact Hbm. }
    destruct (listsAppRouter.owners rows) as [ids|] eqn:Ho.
    + rewrite (owners_foreign rows ids (User.id u) m l Ho Hin Hne).
      exists EAssertion. repeat split.
    + exists ETypeError. split; [reflexivity|]. split; [reflexivity|].
      intros Hfk. exfalso. revert Ho. apply owners_total.
      intros m' o Hin'. unfold rows in Hin'. apply in_map_iff in Hin'.
      destruct Hin' as [x [[= <- <-] Hx]]. apply Hfk.
      apply filter_In in Hx. exact (proj1 Hx).
Qed.

End Listing.

(* ------------------------------------------------------------------ *)
(** ** I3 and I4 hold in every reachable store *)

Lemma find_app_some {A} (p : A -> bool) (xs ys : list A) (a : A) :
  find p xs = Some a -> find p (xs ++ ys) = Some a.
Proof.
  induction xs as [|x xs IH]; simpl; [discriminate|].
  destruct (p x); [trivial|exact IH].
Qed.

Lemma find_map_stable {A} (p : A -> bool) (f : A -> A) (xs : list A) :
  (forall x, p (f x) = p x) ->
  find p (map f xs) = option_map f (find p xs).
Proof.
  intros Hp. induction xs as [|x xs IH]; simpl; [reflexivity|].
  rewrite Hp. destruct (p x); [reflexivity|exact IH].
Qed.

Lemma find_filter_stable {A} (p q : A -> bool) (xs : list A) :
  (forall x, In x xs -> p x = true -> q x = true) ->
  find p (filter q xs) = find p xs.
Proof.
  induction xs as [|x xs IH]; simpl; intros H; [reflexivity|].
  assert (IH' : find p (filter q xs) = find p xs)
    by (apply IH; intros y Hy; apply H; right; exact Hy).
  destruct (p x) eqn:Hpx.
  - rewrite (H x (or_introl eq_refl) Hpx). simpl. rewrite Hpx. reflexivity.
  - destruct (q x); simpl; [rewrite Hpx|]; exact IH'.
Qed.

Lemma forallb_filter {A} (p q : A -> bool) (xs : list A) :
  forallb p xs = true -> forallb p (filter q xs) = true.
Proof.
  rewrite !forallb_forall. intros H x Hx.
  apply filter_In in Hx. apply H. exact (proj1 Hx).
Qed.

Lemma filter_filter_length {A} (p q : A -> bool) (xs : list A) :
  length (filter p (filter q xs)) <= length (filter p xs).
Proof.
  induction xs as [|x xs IH]; simpl; [lia|].
  destruct (q x), (p x) eqn:Hp; simpl; try rewrite Hp; simpl; lia.
Qed.

(** What each writing procedure can leave behind. *)

Lemma create_after newId ctx input db :
  snd (listsAppRouter.create newId ctx input db) = db
  \/ exists row,
       snd (listsAppRouter.create newId ctx input db)
       = mkDB (bookmarkLists db ++ [row]) (bookmarksInLists db).
Proof.
  unfold listsAppRouter.create, authedProcedure.
  destruct (user ctx); [|left; reflexivity].
  unfold listsAppRouter.create_mutation, insert_bookmarkLists. run.
  destruct (existsb _ _); simpl; [left; reflexivity|].
  right. eexists. reflexivity.
Qed.

Lemma guard_cases {A} ctx listId (next : Store A) db :
  (exists e, ensureListOwnership ctx listId next db = (Throw e, db))
  \/ (exists u l,
        user ctx = Some u /\ owns db u listId l /\
        ensureListOwnership ctx listId next db = next db).
Proof.
  destruct (user ctx) as [u|] eqn:Hu.
  - destruct (find (id_is listId) (bookmarkLists db)) as [l|] eqn:Hf.
    + destruct (BookmarkList.userId l =? User.id u) eqn:Ho.
      * right. exists u, l. apply String.eqb_eq in Ho.
        split; [reflexivity|]. split; [split; assumption|].
        apply (ensureListOwnership_pass ctx u listId l); [exact Hu|split; assumption].
      * left. eexists. run. rewrite Hu, Hf, Ho. reflexivity.
    + left. eexists. run. rewrite Hu, Hf. reflexivity.
  - left. eexists. run. rewrite Hu. reflexivity.
Qed.

Lemma edit_mutation_after u input db :
  snd (listsAppRouter.edit_mutation u input db) = db
  \/ snd (listsAppRouter.edit_mutation u input db) = edited u input db.
Proof.
  unfold listsAppRouter.edit_mutation, update_bookmarkLists, edited.
  fold (edit_set input). run.
  destruct (no_values (edit_set input)).
  - left. destruct (truthy _); simpl; [|reflexivity].
    destruct (find (id_and_owner _ _) _) as [l|]; simpl; [|reflexivity].
    destruct (negb _); reflexivity.
  - destruct (truthy _); simpl.
    + destruct (find (id_and_owner _ _) _) as [l|]; simpl; [|left; reflexivity].
      destruct (negb _); simpl; [left; reflexivity|].
      right.
      match goal with
      | |- context [match ?x with [] => _ | _ :: _ => _ end] => destruct x
      end; reflexivity.
    + right.
      match goal with
      | |- context [match ?x with [] => _ | _ :: _ => _ end] => destruct x
      end; reflexivity.
Qed.

Lemma edit_after ctx input db :
  snd (listsAppRouter.edit ctx input db) = db
  \/ exists u, snd (listsAppRouter.edit ctx input db) = edited u input db.
Proof.
  unfold listsAppRouter.edit, authedProcedure.
  destruct (user ctx) as [u|] eqn:Hu; [|left; reflexivity].
  destruct (guard_cases ctx (EditList.listId input)
              (listsAppRouter.edit_mutation u input) db)
    as [[e ->]|[u' [l [_ [_ ->]]]]]; [left; reflexivity|].
  destruct (edit_mutation_after u input db) as [->| ->];
    [left; reflexivity|right; exists u; reflexivity].
Qed.

Lemma delete_after ctx listId db :
  snd (listsAppRouter.delete ctx listId db) = db
  \/ exists u, snd (listsAppRouter.delete ctx listId db) = deleted u listId db.
Proof.
  unfold listsAppRouter.delete, authedProcedure.
  destruct (user ctx) as [u|] eqn:Hu; [|left; reflexivity].
  destruct (guard_cases ctx listId (listsAppRouter.delete_mutation u listId) db)
    as [[e ->]|[u' [l [_ [_ ->]]]]]; [left; reflexivity|].
  rewrite delete_mutation_run.
  destruct (filter _ _); [left; reflexivity|right; exists u; reflexivity].
Qed.

Lemma addToList_after auth fault ctx listId bookmarkId db :
  snd (listsAppRouter.addToList auth fault ctx listId bookmarkId db) = db
  \/ (exists l,
        find (id_is listId) (bookmarkLists db) = Some l
        /\ BookmarkList.type l = manual
        /\ count_pair db listId bookmarkId = 0
        /\ snd (listsAppRouter.addToList auth fault ctx listId bookmarkId db)
           = mkDB (bookmarkLists db)
                  (bookmarksInLists db ++ [BookmarkInList.mk listId bookmarkId])).
Proof.
  unfold listsAppRouter.addToList, authedProcedure.
  destruct (user ctx) as [u|] eqn:Hu; [|left; reflexivity].
  match goal with
  | |- context [ensureListOwnership ctx listId ?next db] =>
      destruct (guard_cases ctx listId next db)
        as [[e ->]|[u' [l [Hu' [Hown ->]]]]]; [left; reflexivity|]
  end.
  rewrite Hu in Hu'. injection Hu' as <-.
  unfold listsAppRouter.ensureBookmarkOwnership.
  destruct (auth ctx bookmarkId); [left; reflexivity|].
  destruct (BookmarkList.type l) eqn:Hty.
  - rewrite (addToList_mutation_manual fault u listId bookmarkId l db Hown Hty).
    destruct fault as [e|].
    + left. destruct (match e with ESqlite c => _ | _ => false end); reflexivity.
    + destruct (count_pair db listId bookmarkId =? 0)%nat eqn:Hc; [|left; reflexivity].
      right. exists l. apply Nat.eqb_eq in Hc. destruct Hown as [Hf _].
      repeat split; assumption.
  - left. destruct Hown as [Hf Ho]. unfold listsAppRouter.addToList_mutation. run.
    rewrite (find_id_and_owner _ _ _ _ Hf Ho). simpl. rewrite Hty. reflexivity.
Qed.

Lemma removeFromList_after auth ctx listId bookmarkId db :
  snd (listsAppRouter.removeFromList auth ctx listId bookmarkId db) = db
  \/ snd (listsAppRouter.removeFromList auth ctx listId bookmarkId db)
     = mkDB (bookmarkLists db)
            (filter (fun m => negb (pair_is listId bookmarkId m)) (bookmarksInLists db)).
Proof.
  unfold listsAppRouter.removeFromList, authedProcedure.
  destruct (user ctx) as [u|] eqn:Hu; [|left; reflexivity].
  match goal with
  | |- context [ensureListOwnership ctx listId ?next db] =>
      destruct (guard_cases ctx listId next db)
        as [[e ->]|[u' [l [_ [_ ->]]]]]; [left; reflexivity|]
  end.
  unfold listsAppRouter.ensureBookmarkOwnership.
  destruct (auth ctx bookmarkId); [left; reflexivity|].
  rewrite removeFromList_mutation_run.
  destruct (_ =? 0)%nat; [left|right]; reflexivity.
Qed.

Lemma I3_same_members db db' :
  bookmarksInLists db' = bookmarksInLists db -> I3 db -> I3 db'.
Proof. intros E H l b. unfold count_pair. rewrite E. apply H. Qed.

Lemma I3_filter db lists q :
  I3 db -> I3 (mkDB lists (filter q (bookmarksInLists db))).
Proof.
  intros H l b. unfold count_pair. simpl.
  pose proof (filter_filter_length (pair_is l b) q (bookmarksInLists db)).
  specialize (H l b). unfold count_pair in H. lia.
Qed.

(** Every call keeps the primary key of the membership table. *)
Lemma after_I3 c db : I3 db -> I3 (after c db).
Proof.
  intros H. destruct c as [newId ctx input|ctx input|ctx listId
                          |auth fault ctx listId bookmarkId
                          |auth ctx listId bookmarkId]; simpl.
  - destruct (create_after newId ctx input db) as [->|[row ->]]; [exact H|].
    exact (I3_same_members db _ eq_refl H).
  - destruct (edit_after ctx input db) as [->|[u ->]]; [exact H|].
    exact (I3_same_members db _ eq_refl H).
  - destruct (delete_after ctx listId db) as [->|[u ->]]; [exact H|].
    apply I3_filter. exact H.
  - destruct (addToList_after auth fault ctx listId bookmarkId db)
      as [->|[l [_ [_ [Hc ->]]]]]; [exact H|].
    intros l' b'. unfold count_pair. simpl. rewrite filter_app, length_app. simpl.
    destruct (pair_is l' b' (BookmarkInList.mk listId bookmarkId)) eqn:Hp; simpl.
    + unfold pair_is in Hp. simpl in Hp. apply andb_prop in Hp.
      destruct Hp as [H1 H2]. apply String.eqb_eq in H1, H2. subst l' b'.
      unfold count_pair in Hc. rewrite Hc. simpl. lia.
    + specialize (H l' b'). unfold count_pair in H. lia.
  - destruct (removeFromList_after auth ctx listId bookmarkId db) as [->| ->];
      [exact H|].
    apply I3_filter. exact H.
Qed.

(** Every call keeps membership rows on existing manual lists. *)
Lemma after_I4 c db : I4 db -> I4 (after c db).
Proof.
  unfold I4. intros H.
  destruct c as [newId ctx input|ctx input|ctx listId
                |auth fault ctx listId bookmarkId
                |auth ctx listId bookmarkId]; simpl.
  - destruct (create_after newId ctx input db) as [->|[row ->]]; [exact H|].
    simpl. rewrite forallb_forall in *. intros m Hm. specialize (H m Hm).
    unfold references_manual in *.
    destruct (find _ (bookmarkLists db)) as [l|] eqn:Hf; [|discriminate].
    rewrite (find_app_some _ _ _ _ Hf). exact H.
  - destruct (edit_after ctx input db) as [->|[u ->]]; [exact H|].
    unfold edited. simpl. rewrite forallb_forall in *. intros m Hm.
    specialize (H m Hm). unfold references_manual in *.
    rewrite find_map_stable.
    + destruct (find _ (bookmarkLists db)) as [l|]; [|discriminate]. simpl.
      destruct (id_and_owner _ _ l); exact H.
    + intros x. destruct (id_and_owner _ _ x); reflexivity.
  - destruct (delete_after ctx listId db) as [->|[u ->]]; [exact H|].
    unfold deleted. simpl. rewrite forallb_forall in *. intros m Hm.
    apply filter_In in Hm. destruct Hm as [Hm Hc]. specialize (H m Hm).
    unfold references_manual in *. rewrite find_filter_stable; [exact H|].
    intros x Hx Hid. apply negb_true_iff.
    destruct (id_and_owner listId (User.id u) x) eqn:Hw; [|reflexivity].
    unfold cascade in Hc. apply negb_true_iff in Hc.
    assert (Hex : existsb (id_is (BookmarkInList.listId m))
                    (filter (id_and_owner listId (User.id u)) (bookmarkLists db)) = true).
    { apply existsb_exists. exists x. split; [|exact Hid].
      apply filter_In. split; assumption. }
    rewrite Hex in Hc. discriminate.
  - destruct (addToList_after auth fault ctx listId bookmarkId db)
      as [->|[l [Hf [Hty [_ ->]]]]]; [exact H|].
    simpl. rewrite forallb_app, H. simpl.
    unfold references_manual. simpl. rewrite Hf, Hty. reflexivity.
  - destruct (removeFromList_after auth ctx listId bookmarkId db) as [->| ->];
      [exact H|].
    simpl. apply forallb_filter. exact H.
Qed.

Lemma reachable_I3 db : reachable db -> I3 db.
Proof.
  induction 1 as [|c db _ IH].
  - intros l b. unfold count_pair. simpl. lia.
  - apply after_I3. exact IH.
Qed.

Lemma reachable_I4 db : reachable db -> I4 db.
Proof.
  induction 1 as [|c db _ IH].
  - reflexivity.
  - apply after_I4. exact IH.
Qed.

(** In every store that the router can produce, the membership calls on a
    smart list fail [BAD_REQUEST] and write nothing. *)
Corollary reachable_smart_list_rejects auth fault ctx u listId bookmarkId l db :
  reachable db ->
  user ctx = Some u ->
  owns db u listId l ->
  auth ctx bookmarkId = None ->
  BookmarkList.type l = smart ->
  listsAppRouter.addToList auth fault ctx listId bookmarkId db
  = (Throw (ETRPC (mkTRPCError BAD_REQUEST (Some "Smart lists cannot be added to"))),
     db)
  /\
  listsAppRouter.removeFromList auth ctx listId bookmarkId db
  = (Throw (ETRPC (mkTRPCError BAD_REQUEST
                     (Some ("Bookmark " ++ bookmarkId
                            ++ " is already not in list " ++ listId)))),
     db).
Proof.
  intros Hr Hu Hown Hb Hty. split.
  - apply (addToList_on_smart auth fault ctx u listId bookmarkId l db); assumption.
  - apply (removeFromList_without_row auth ctx u listId bookmarkId l db);
      try assumption.
    destruct Hown as [Hf _].
    exact (I4_smart_has_no_member db listId l bookmarkId (reachable_I4 db Hr) Hf Hty).
Qed.

(* ------------------------------------------------------------------ *)
(** ** The membership properties on the sample store *)

Lemma C3_witness :
  listsAppRouter.addToList Sample.allow None Sample.as_alice "l2" "b1" Sample.db
  = (Throw (ETRPC (mkTRPCError BAD_REQUEST (Some "Smart lists cannot be added to"))),
     Sample.db)
  /\ listsAppRouter.removeFromList Sample.allow Sample.as_alice "l2" "b1" Sample.db
     = (Throw (ETRPC (mkTRPCError BAD_REQUEST
                        (Some "Bookmark b1 is already not in list l2"))),
        Sample.db).
Proof.
  apply (C3_smart_list_rejects_membership_calls Sample.allow None Sample.as_alice
           Sample.alice "l2" "b1" Sample.recent Sample.db).
  - reflexivity.
  - reflexivity.
  - split; reflexivity.
  - reflexivity.
  - reflexivity.
Defined.

Lemma C4_witness :
  listsAppRouter.addToList Sample.allow None Sample.as_alice "l1" "b1" Sample.db
  = (Throw (ETRPC (mkTRPCError BAD_REQUEST
                     (Some "Bookmark b1 is already in the list l1"))), Sample.db)
  /\ listsAppRouter.addToList Sample.allow (Some (ESqlite "SQLITE_BUSY"))
       Sample.as_alice "l1" "b2" Sample.db
     = (Throw (ETRPC (mkTRPCError INTERNAL_SERVER_ERROR (Some "Something went wrong"))),
        Sample.db)
  /\ listsAppRouter.addToList Sample.allow None Sample.as_alice "l1" "b2" Sample.db
     = (Return tt,
        mkDB [Sample.reading; Sample.recent; Sample.recipes]
             [BookmarkInList.mk "l1" "b1"; BookmarkInList.mk "l1" "b2"]).
Proof.
  split; [|split].
  - apply (proj1 (C4_addToList_insert_outcomes Sample.allow Sample.as_alice
                    Sample.alice "l1" "b1" Sample.reading Sample.db
                    eq_refl (conj eq_refl eq_refl) eq_refl eq_refl)).
    reflexivity.
  - apply (proj1 (proj2 (proj2 (C4_addToList_insert_outcomes Sample.allow
                                  Sample.as_alice Sample.alice "l1" "b2"
                                  Sample.reading Sample.db
                                  eq_refl (conj eq_refl eq_refl) eq_refl eq_refl)))).
    discriminate.
  - apply (proj2 (proj2 (proj2 (C4_addToList_insert_outcomes Sample.allow
                                  Sample.as_alice Sample.alice "l1" "b2"
                                  Sample.reading Sample.db
                                  eq_refl (conj eq_refl eq_refl) eq_refl eq_refl)))).
    reflexivity.
Defined.

Lemma C5_witness :
  listsAppRouter.removeFromList Sample.allow Sample.as_alice "l1" "b2" Sample.db
  = (Throw (ETRPC (mkTRPCError BAD_REQUEST
                     (Some "Bookmark b2 is already not in list l1"))), Sample.db)
  /\ exists db',
       listsAppRouter.removeFromList Sample.allow Sample.as_alice "l1" "b1" Sample.db
       = (Return tt, db')
       /\ bookmarkLists db' = bookmarkLists Sample.db
       /\ count_pair db' "l1" "b1" = 0
       /\ S (length (bookmarksInLists db')) = length (bookmarksInLists Sample.db)
       /\ (forall m, In m (bookmarksInLists db') <->
             In m (bookmarksInLists Sample.db) /\ m <> BookmarkInList.mk "l1" "b1").
Proof.
  split.
  - apply (proj1 (C5_removeFromList_outcomes Sample.allow Sample.as_alice
                    Sample.alice "l1" "b2" Sample.reading Sample.db
                    eq_refl (conj eq_refl eq_refl) eq_refl)).
    reflexivity.
  - apply (proj2 (C5_removeFromList_outcomes Sample.allow Sample.as_alice
                    Sample.alice "l1" "b1" Sample.reading Sample.db
                    eq_refl (conj eq_refl eq_refl) eq_refl)).
    reflexivity.
Defined.

Lemma C10_witness :
  Forall (fun l => BookmarkList.userId l = "alice") [Sample.reading]
  /\ exists e,
       listsAppRouter.getListsOfBookmark Sample.allow Sample.as_alice "b1"
         Sample.db_crossed
       = (Throw e, Sample.db_crossed)
       /\ kindOf e = Internal.
Proof.
  split.
  - destruct (proj1 (C10_getListsOfBookmark_owner_check Sample.allow Sample.as_alice
                       "b1" Sample.db)
                [Sample.reading] Sample.db eq_refl) as [_ [_ [u [Hu HF]]]].
    injection Hu as <-. exact HF.
  - destruct (proj2 (C10_getListsOfBookmark_owner_check Sample.allow Sample.as_alice
                       "b1" Sample.db_crossed)
                Sample.alice (BookmarkInList.mk "l3" "b1") Sample.recipes
                eq_refl eq_refl (or_intror (or_introl eq_refl)) eq_refl eq_refl)
      as [e [He [Hk _]]].
    + discriminate.
    + exists e. split; assumption.
Defined.

(* ------------------------------------------------------------------ *)
(** ** Further properties of the router *)

Lemma ensureListOwnership_not_found {A} ctx u listId (next : Store A) db :
  user ctx = Some u ->
  (forall l, In l (bookmarkLists db) -> BookmarkList.id l <> listId) ->
  ensureListOwnership ctx listId next db
  = (Throw (ETRPC (mkTRPCError NOT_FOUND (Some "List not found"))), db).
Proof.
  intros Hu Hnone. run. rewrite Hu.
  assert (Hf : find (id_is listId) (bookmarkLists db) = None).
  { apply find_none_iff. intros l Hl. apply String.eqb_neq. auto. }
  rewrite Hf. reflexivity.
Qed.

Lemma ensureListOwnership_forbidden {A} ctx u listId l (next : Store A) db :
  user ctx = Some u ->
  find (id_is listId) (bookmarkLists db) = Some l ->
  BookmarkList.userId l <> User.id u ->
  ensureListOwnership ctx listId next db
  = (Throw (ETRPC (mkTRPCError FORBIDDEN
                     (Some "User is not allowed to access resource"))), db).
Proof.
  intros Hu Hf Ho. run. rewrite Hu, Hf.
  apply String.eqb_neq in Ho. rewrite Ho. reflexivity.
Qed.

Lemma get_query_run u listId db :
  listsAppRouter.get_query u listId db
  = match find (id_and_owner listId (User.id u)) (bookmarkLists db) with
    | Some r => (Return (fields_of r), db)
    | None => (Throw (ETRPC (mkTRPCError NOT_FOUND None)), db)
    end.
Proof.
  unfold listsAppRouter.get_query. run.
  destruct (find _ _); reflexivity.
Qed.

(** X1. [get] by the owner returns the six public fields of the stored
    row; whenever [get] returns, what it returns are the fields of a list
    that the caller owns; the store is never written. *)
Theorem X1_get_returns_own_list :
  forall ctx listId db,
    (forall u l, user ctx = Some u -> owns db u listId l ->
       listsAppRouter.get ctx listId db = (Return (fields_of l), db))
    /\
    (forall z db', listsAppRouter.get ctx listId db = (Return z, db') ->
       db' = db
       /\ exists u l, user ctx = Some u /\ owns db u listId l /\ z = fields_of l).
Proof.
  intros ctx listId db. split.
  - intros u l Hu Hown.
    unfold listsAppRouter.get, authedProcedure. rewrite Hu.
    rewrite (ensureListOwnership_pass ctx u listId l) by assumption.
    rewrite get_query_run. destruct Hown as [Hf Ho].
    rewrite (find_id_and_owner _ _ _ _ Hf Ho). reflexivity.
  - intros z db'. unfold listsAppRouter.get, authedProcedure.
    destruct (user ctx) as [u|] eqn:Hu; [|discriminate].
    destruct (guard_cases ctx listId (listsAppRouter.get_query u listId) db)
      as [[e ->]|[u' [l [Hu' [Hown ->]]]]]; [discriminate|].
    rewrite Hu in Hu'. injection Hu' as <-.
    rewrite get_query_run. destruct Hown as [Hf Ho].
    rewrite (find_id_and_owner _ _ _ _ Hf Ho).
    intros [= <- <-]. split; [reflexivity|].
    exists u, l. split; [reflexivity|]. split; [split; assumption|reflexivity].
Qed.

Lemma X1_witness :
  listsAppRouter.get Sample.as_alice "l2" Sample.db
  = (Return (ZBookmarkList.mk "l2" "Recent" "clock" None smart (Some "is:fav")),
     Sample.db).
Proof.
  exact (proj1 (X1_get_returns_own_list Sample.as_alice "l2" Sample.db)
           Sample.alice Sample.recent eq_refl (conj eq_refl eq_refl)).
Defined.

(** X2. Each of the five procedures that use [ensureListOwnership] (edit,
    delete, addToList, removeFromList, get) is refused with the error of
    that guard, before its own body and before the bookmark guard, and
    writes nothing: [NOT_FOUND] when no list has the id, [FORBIDDEN] when
    the list belongs to someone else. *)
Theorem X2_gated_procedures_refuse :
  forall auth fault ctx u input bookmarkId db,
    user ctx = Some u ->
    let listId := EditList.listId input in
    let refused (e : TRPCError) :=
      listsAppRouter.edit ctx input db = (Throw (ETRPC e), db)
      /\ listsAppRouter.delete ctx listId db = (Throw (ETRPC e), db)
      /\ listsAppRouter.addToList auth fault ctx listId bookmarkId db
         = (Throw (ETRPC e), db)
      /\ listsAppRouter.removeFromList auth ctx listId bookmarkId db
         = (Throw (ETRPC e), db)
      /\ listsAppRouter.get ctx listId db = (Throw (ETRPC e), db) in
    ((forall l, In l (bookmarkLists db) -> BookmarkList.id l <> listId) ->
       refused (mkTRPCError NOT_FOUND (Some "List not found")))
    /\
    (forall l, find (id_is listId) (bookmarkLists db) = Some l ->
       BookmarkList.userId l <> User.id u ->
       refused (mkTRPCError FORBIDDEN (Some "User is not allowed to access resource"))).
Proof.
  intros auth fault ctx u input bookmarkId db Hu listId refused.
  unfold refused, listsAppRouter.edit, listsAppRouter.delete, listsAppRouter.addToList,
    listsAppRouter.removeFromList, listsAppRouter.get, authedProcedure.
  rewrite Hu. fold listId. split.
  - intros Hnone.
    rewrite !(ensureListOwnership_not_found ctx u listId) by assumption.
    repeat split.
  - intros l Hf Ho.
    rewrite !(ensureListOwnership_forbidden ctx u listId l) by assumption.
    repeat split.
Qed.

Lemma X2_witness :
  listsAppRouter.get Sample.as_bob "l1" Sample.db
  = (Throw (ETRPC (mkTRPCError FORBIDDEN
                     (Some "User is not allowed to access resource"))), Sample.db)
  /\ listsAppRouter.delete Sample.as_bob "l9" Sample.db
     = (Throw (ETRPC (mkTRPCError NOT_FOUND (Some "List not found"))), Sample.db).
Proof.
  pose proof (X2_gated_procedures_refuse Sample.allow None Sample.as_bob Sample.bob
                (EditList.mk "l1" None None undefined undefined) "b1" Sample.db
                eq_refl) as H1.
  pose proof (X2_gated_procedures_refuse Sample.allow None Sample.as_bob Sample.bob
                (EditList.mk "l9" None None undefined undefined) "b1" Sample.db
                eq_refl) as H9.
  cbv zeta in H1, H9. split.
  - destruct (proj2 H1 Sample.reading eq_refl) as [_ [_ [_ [_ H]]]];
      [discriminate|exact H].
  - destruct (proj1 H9) as [_ [H _]]; [|exact H].
    simpl. intros l [<-|[<-|[<-|[]]]]; discriminate.
Defined.

(** X3. When the list guard lets the caller through and the bookmark guard
    refuses with an error, addToList and removeFromList fail with that
    error and write nothing, whatever the type of the list and whether or
    not the pair has a row; getListsOfBookmark fails with it too. *)
Theorem X3_bookmark_guard_refusal :
  forall auth fault ctx u listId bookmarkId l e db,
    user ctx = Some u ->
    owns db u listId l ->
    auth ctx bookmarkId = Some e ->
    listsAppRouter.addToList auth fault ctx listId bookmarkId db = (Throw (ETRPC e), db)
    /\ listsAppRouter.removeFromList auth ctx listId bookmarkId db
       = (Throw (ETRPC e), db)
    /\ listsAppRouter.getListsOfBookmark auth ctx bookmarkId db = (Throw (ETRPC e), db).
Proof.
  intros auth fault ctx u listId bookmarkId l e db Hu Hown Hb.
  unfold listsAppRouter.addToList, listsAppRouter.removeFromList,
    listsAppRouter.getListsOfBookmark, authedProcedure.
  rewrite Hu.
  rewrite !(ensureListOwnership_pass ctx u listId l) by assumption.
  unfold listsAppRouter.ensureBookmarkOwnership. rewrite Hb.
  repeat split.
Qed.

Lemma X3_witness :
  listsAppRouter.addToList
    (fun _ _ => Some (mkTRPCError NOT_FOUND (Some "Bookmark not found")))
    None Sample.as_alice "l1" "b7" Sample.db
  = (Throw (ETRPC (mkTRPCError NOT_FOUND (Some "Bookmark not found"))), Sample.db).
Proof.
  exact (proj1 (X3_bookmark_guard_refusal
                  (fun _ _ => Some (mkTRPCError NOT_FOUND (Some "Bookmark not found")))
                  None Sample.as_alice Sample.alice "l1" "b7" Sample.reading
                  (mkTRPCError NOT_FOUND (Some "Bookmark not found")) Sample.db
                  eq_refl (conj eq_refl eq_refl) eq_refl)).
Defined.

(** X4. [list] returns the lists of the caller, all of them and no list of
    anyone else, and writes nothing; the lists it returns and the lists of
    the other owners together are as many as the table has rows. *)
Theorem X4_list_returns_own_lists :
  forall ctx u db,
    user ctx = Some u ->
    exists lists,
      listsAppRouter.list ctx db = (Return lists, db)
      /\ (forall l, In l lists <->
            In l (bookmarkLists db) /\ BookmarkList.userId l = User.id u)
      /\ length lists + length (lists_of_others (User.id u) db)
         = length (bookmarkLists db).
Proof.
  intros ctx u db Hu.
  unfold listsAppRouter.list, authedProcedure, findMany. rewrite Hu.
  eexists. split; [reflexivity|]. split.
  - intros l. rewrite filter_In, String.eqb_eq. reflexivity.
  - unfold lists_of_others. apply filter_split_length.
Qed.

Lemma X4_witness :
  exists lists,
    listsAppRouter.list Sample.as_alice Sample.db = (Return lists, Sample.db)
    /\ (forall l, In l lists <->
          In l (bookmarkLists Sample.db) /\ BookmarkList.userId l = "alice").
Proof.
  destruct (X4_list_returns_own_lists Sample.as_alice Sample.alice Sample.db eq_refl)
    as [lists [H1 [H2 _]]].
  exists lists. split; assumption.
Defined.

Lemma find_app_none {A} (p : A -> bool) (xs ys : list A) :
  find p xs = None -> find p (xs ++ ys) = find p ys.
Proof.
  induction xs as [|x xs IH]; simpl; [reflexivity|].
  destruct (p x); [discriminate|exact IH].
Qed.

Lemma create_run newId ctx u input db :
  user ctx = Some u ->
  (forall l, In l (bookmarkLists db) -> BookmarkList.id l <> newId) ->
  listsAppRouter.create newId ctx input db
  = (Return (BookmarkList.mk newId (NewList.name input) (NewList.icon input)
               (column (NewList.parentId input)) (NewList.type input)
               (column (NewList.query input)) (User.id u)),
     mkDB (bookmarkLists db
           ++ [BookmarkList.mk newId (NewList.name input) (NewList.icon input)
                 (column (NewList.parentId input)) (NewList.type input)
                 (column (NewList.query input)) (User.id u)])
          (bookmarksInLists db)).
Proof.
  intros Hu Hfresh.
  unfold listsAppRouter.create, authedProcedure. rewrite Hu.
  unfold listsAppRouter.create_mutation, insert_bookmarkLists. run.
  assert (Hex : existsb (id_is newId) (bookmarkLists db) = false).
  { destruct (existsb (id_is newId) (bookmarkLists db)) eqn:E; [|reflexivity].
    apply existsb_exists in E. destruct E as [l [Hl Hid]].
    apply String.eqb_eq in Hid. destruct (Hfresh l Hl Hid). }
  rewrite Hex. reflexivity.
Qed.

(** X5. What [create] stores can be read back: after a [create] with a
    fresh id, [get] of that id by the creator returns the fields given to
    [create], the creator's [list] is what it was with the new list at the
    end, and the [list] of any other caller is what it was. *)
Theorem X5_create_then_read :
  forall newId ctx u input db,
    user ctx = Some u ->
    (forall l, In l (bookmarkLists db) -> BookmarkList.id l <> newId) ->
    let db' := snd (listsAppRouter.create newId ctx input db) in
    listsAppRouter.get ctx newId db'
    = (Return (ZBookmarkList.mk newId (NewList.name input) (NewList.icon input)
                 (column (NewList.parentId input)) (NewList.type input)
                 (column (NewList.query input))), db')
    /\ (forall before,
          fst (listsAppRouter.list ctx db) = Return before ->
          exists created,
            fst (listsAppRouter.create newId ctx input db) = Return created
            /\ fst (listsAppRouter.list ctx db') = Return (before ++ [created])%list)
    /\ (forall ctx' u', user ctx' = Some u' -> User.id u' <> User.id u ->
          fst (listsAppRouter.list ctx' db') = fst (listsAppRouter.list ctx' db)).
Proof.
  intros newId ctx u input db Hu Hfresh db'.
  unfold db'. rewrite (create_run newId ctx u input db Hu Hfresh). simpl.
  set (row := BookmarkList.mk newId _ _ _ _ _ _).
  assert (Hnone : find (id_is newId) (bookmarkLists db) = None).
  { apply find_none_iff. intros l Hl. apply String.eqb_neq. auto. }
  split; [|split].
  - unfold listsAppRouter.get, authedProcedure. rewrite Hu.
    assert (Hown : owns (mkDB (bookmarkLists db ++ [row]) (bookmarksInLists db))
                     u newId row).
    { split; [|reflexivity]. simpl. rewrite (find_app_none _ _ _ Hnone). simpl.
      unfold id_is. simpl. rewrite String.eqb_refl. reflexivity. }
    rewrite (ensureListOwnership_pass ctx u newId row) by assumption.
    rewrite get_query_run. destruct Hown as [Hf Ho].
    rewrite (find_id_and_owner _ _ _ _ Hf Ho). reflexivity.
  - intros before. unfold listsAppRouter.list, authedProcedure, findMany.
    rewrite Hu. simpl. intros [= <-]. exists row. split; [reflexivity|].
    rewrite filter_app. simpl. rewrite String.eqb_refl. reflexivity.
  - intros ctx' u' Hu' Hne. unfold listsAppRouter.list, authedProcedure, findMany.
    rewrite Hu'. simpl. rewrite filter_app. simpl.
    apply not_eq_sym in Hne. apply String.eqb_neq in Hne. rewrite Hne.
    rewrite app_nil_r. reflexivity.
Qed.

Lemma X5_witness :
  listsAppRouter.get Sample.as_bob "l4"
    (snd (listsAppRouter.create "l4" Sample.as_bob
            (NewList.mk "Inbox" "tray" null smart (value "is:fav")) Sample.db))
  = (Return (ZBookmarkList.mk "l4" "Inbox" "tray" None smart (Some "is:fav")),
     snd (listsAppRouter.create "l4" Sample.as_bob
            (NewList.mk "Inbox" "tray" null smart (value "is:fav")) Sample.db)).
Proof.
  apply (X5_create_then_read "l4" Sample.as_bob Sample.bob
           (NewList.mk "Inbox" "tray" null smart (value "is:fav")) Sample.db).
  - reflexivity.
  - simpl. intros l [<-|[<-|[<-|[]]]]; discriminate.
Defined.

(** X6. When the call provides at least one field, [edit] by the owner
    returns exactly when the query given is falsy (missing, null or empty)
    or the list is smart: a smart list accepts a new query, and any list
    accepts an edit that leaves the query alone or clears it. *)
Theorem X6_edit_returns_iff :
  forall ctx u input l db,
    user ctx = Some u ->
    owns db u (EditList.listId input) l ->
    no_values (edit_set input) = false ->
    ((exists r db', listsAppRouter.edit ctx input db = (Return r, db'))
     <-> (truthy (EditList.query input) = false \/ BookmarkList.type l = smart)).
Proof.
  intros ctx u input l db Hu Hown Hnv. split.
  - intros [r [db' H]].
    destruct (edit_return_inv _ _ _ _ _ H) as [u' [l' [Hu' [Hown' [Hq _]]]]].
    destruct Hown as [Hf _]. destruct Hown' as [Hf' _].
    rewrite Hf in Hf'. injection Hf' as <-. exact Hq.
  - intros Hq. eexists. eexists.
    apply (edit_returns ctx u input l db); assumption.
Qed.

Lemma X6_witness :
  (exists r db',
     listsAppRouter.edit Sample.as_alice
       (EditList.mk "l2" None None undefined (value "is:archived")) Sample.db
     = (Return r, db'))
  <-> (truthy (value "is:archived") = false \/ BookmarkList.type Sample.recent = smart).
Proof.
  apply (X6_edit_returns_iff Sample.as_alice Sample.alice
           (EditList.mk "l2" None None undefined (value "is:archived"))
           Sample.recent Sample.db).
  - reflexivity.
  - split; reflexivity.
  - reflexivity.
Defined.

Lemma find_edited u input l lists :
  find (id_is (EditList.listId input)) lists = Some l ->
  BookmarkList.userId l = User.id u ->
  find (id_is (EditList.listId input))
       (map (fun x => if id_and_owner (EditList.listId input) (User.id u) x
                      then apply_set (edit_set input) x else x) lists)
  = Some (apply_set (edit_set input) l).
Proof.
  intros Hf Ho. rewrite find_map_stable.
  - rewrite Hf. simpl. unfold id_and_owner.
    apply find_some in Hf. destruct Hf as [_ Hid]. unfold id_is in Hid.
    apply String.eqb_eq in Ho. rewrite Hid, Ho. reflexivity.
  - intros x. destruct (id_and_owner _ _ x); reflexivity.
Qed.

(** X7. What [edit] returns can be read back: after an [edit] that
    returns a record, [get] of the same list by the same caller returns
    the public fields of that record. *)
Theorem X7_edit_then_get :
  forall ctx input db r db',
    listsAppRouter.edit ctx input db = (Return r, db') ->
    listsAppRouter.get ctx (EditList.listId input) db' = (Return (fields_of r), db').
Proof.
  intros ctx input db r db' H.
  destruct (edit_return_inv _ _ _ _ _ H) as [u [l [Hu [Hown [Hq Hnv]]]]].
  rewrite (edit_returns ctx u input l db Hu Hown Hq Hnv) in H.
  injection H as <- <-.
  assert (Hown' : owns (edited u input db) u (EditList.listId input)
                    (apply_set (edit_set input) l)).
  { destruct Hown as [Hf Ho]. split; [|exact Ho].
    unfold edited. simpl. apply find_edited; assumption. }
  unfold listsAppRouter.get, authedProcedure. rewrite Hu.
  rewrite (ensureListOwnership_pass ctx u _ (apply_set (edit_set input) l))
    by assumption.
  rewrite get_query_run. destruct Hown' as [Hf Ho].
  rewrite (find_id_and_owner _ _ _ _ Hf Ho). reflexivity.
Qed.

Lemma X7_witness :
  listsAppRouter.get Sample.as_alice "l1"
    (mkDB [BookmarkList.mk "l1" "Read later" "book" (Some "l2") manual None "alice";
           Sample.recent; Sample.recipes]
          [BookmarkInList.mk "l1" "b1"])
  = (Return (ZBookmarkList.mk "l1" "Read later" "book" (Some "l2") manual None),
     mkDB [BookmarkList.mk "l1" "Read later" "book" (Some "l2") manual None "alice";
           Sample.recent; Sample.recipes]
          [BookmarkInList.mk "l1" "b1"]).
Proof.
  exact (X7_edit_then_get Sample.as_alice
           (EditList.mk "l1" (Some "Read later") None (value "l2") undefined)
           Sample.db
           (BookmarkList.mk "l1" "Read later" "book" (Some "l2") manual None "alice")
           (mkDB [BookmarkList.mk "l1" "Read later" "book" (Some "l2") manual None "alice";
                  Sample.recent; Sample.recipes]
                 [BookmarkInList.mk "l1" "b1"])
           eq_refl).
Defined.

Lemma map_if_none {A} (p : A -> bool) (f : A -> A) (xs : list A) :
  (forall x, In x xs -> p x = false) ->
  map (fun x => if p x then f x else x) xs = xs.
Proof.
  induction xs as [|a xs IH]; simpl; intros H; [reflexivity|].
  rewrite (H a (or_introl eq_refl)). f_equal. apply IH.
  intros x Hx. apply H. right. exact Hx.
Qed.

(** X8. The bodies of the guarded procedures on a store where the list is
    no longer there for the caller (it was deleted after the guard read
    it): [get] fails [NOT_FOUND]; [edit] without a truthy query fails
    [NOT_FOUND] as its UPDATE matches no row; [edit] with a truthy query
    and [addToList] stop at their [invariant] on the list, which is not a
    [TRPCError] and reaches the caller as [Internal]. None of them
    writes. *)
Theorem X8_bodies_after_concurrent_delete :
  forall fault u input bookmarkId db,
    (forall x, In x (bookmarkLists db) ->
       id_and_owner (EditList.listId input) (User.id u) x = false) ->
    listsAppRouter.get_query u (EditList.listId input) db
    = (Throw (ETRPC (mkTRPCError NOT_FOUND None)), db)
    /\ (truthy (EditList.query input) = false ->
        no_values (edit_set input) = false ->
        listsAppRouter.edit_mutation u input db
        = (Throw (ETRPC (mkTRPCError NOT_FOUND None)), db))
    /\ (truthy (EditList.query input) = true ->
        listsAppRouter.edit_mutation u input db = (Throw EInvariant, db))
    /\ listsAppRouter.addToList_mutation fault u (EditList.listId input) bookmarkId db
       = (Throw EInvariant, db)
    /\ kindOf EInvariant = Internal.
Proof.
  intros fault u input bookmarkId db Hgone.
  assert (Hf : find (id_and_owner (EditList.listId input) (User.id u))
                 (bookmarkLists db) = None)
    by (apply find_none_iff; exact Hgone).
  split; [|split; [|split; [|split]]].
  - rewrite get_query_run, Hf. reflexivity.
  - intros Hq Hnv.
    unfold listsAppRouter.edit_mutation, update_bookmarkLists.
    fold (edit_set input). rewrite Hq, Hnv. run.
    rewrite (proj2 (filter_nil_iff _ _) Hgone). simpl.
    rewrite map_if_none by exact Hgone. rewrite DB_eta. reflexivity.
  - intros Hq. unfold listsAppRouter.edit_mutation. rewrite Hq. run.
    rewrite Hf. reflexivity.
  - unfold listsAppRouter.addToList_mutation. run. rewrite Hf. reflexivity.
  - reflexivity.
Qed.

Lemma X8_witness :
  listsAppRouter.edit_mutation Sample.alice
    (EditList.mk "l1" (Some "Read later") None undefined undefined) (mkDB [] [])
  = (Throw (ETRPC (mkTRPCError NOT_FOUND None)), mkDB [] [])
  /\ listsAppRouter.edit_mutation Sample.alice
       (EditList.mk "l1" None None undefined (value "is:fav")) (mkDB [] [])
     = (Throw EInvariant, mkDB [] []).
Proof.
  split.
  - apply (proj1 (proj2 (X8_bodies_after_concurrent_delete None Sample.alice
                           (EditList.mk "l1" (Some "Read later") None undefined undefined)
                           "b1" (mkDB [] []) (fun x (H : In x []) => match H with end)))).
    + reflexivity.
    + reflexivity.
  - apply (proj1 (proj2 (proj2 (X8_bodies_after_concurrent_delete None Sample.alice
                                  (EditList.mk "l1" None None undefined (value "is:fav"))
                                  "b1" (mkDB [] [])
                                  (fun x (H : In x []) => match H with end))))).
    reflexivity.
Defined.

Lemma filter_drop_inserted listId bookmarkId rows :
  length (filter (pair_is listId bookmarkId) rows) = 0 ->
  filter (fun m => negb (pair_is listId bookmarkId m))
         (rows ++ [BookmarkInList.mk listId bookmarkId])
  = rows.
Proof.
  intros Hc. rewrite filter_app. simpl. rewrite pair_is_refl. simpl.
  rewrite app_nil_r. apply filter_all. intros m Hm. apply negb_true_iff.
  apply length_zero_iff_nil in Hc. exact (proj1 (filter_nil_iff _ _) Hc m Hm).
Qed.

Lemma addToList_inserts auth ctx u listId bookmarkId l db :
  user ctx = Some u ->
  owns db u listId l ->
  auth ctx bookmarkId = None ->
  BookmarkList.type l = manual ->
  count_pair db listId bookmarkId = 0 ->
  listsAppRouter.addToList auth None ctx listId bookmarkId db
  = (Return tt,
     mkDB (bookmarkLists db)
          (bookmarksInLists db ++ [BookmarkInList.mk listId bookmarkId])).
Proof.
  intros Hu Hown Hb Hty Hc.
  rewrite (addToList_guarded auth None ctx u listId bookmarkId l db) by assumption.
  rewrite (addToList_mutation_manual None u listId bookmarkId l db Hown Hty).
  rewrite Hc. reflexivity.
Qed.

(** X9. Removing what was just added gives the store back: after an
    [addToList] that inserts the pair, [removeFromList] of the same pair
    by the same caller returns and the store is the one before the
    [addToList]. *)
Theorem X9_add_then_remove_restores :
  forall auth ctx u listId bookmarkId l db,
    user ctx = Some u ->
    owns db u listId l ->
    auth ctx bookmarkId = None ->
    BookmarkList.type l = manual ->
    count_pair db listId bookmarkId = 0 ->
    fst (listsAppRouter.addToList auth None ctx listId bookmarkId db) = Return tt
    /\ listsAppRouter.removeFromList auth ctx listId bookmarkId
         (snd (listsAppRouter.addToList auth None ctx listId bookmarkId db))
       = (Return tt, db).
Proof.
  intros auth ctx u listId bookmarkId l db Hu Hown Hb Hty Hc.
  rewrite (addToList_inserts auth ctx u listId bookmarkId l db) by assumption.
  simpl. split; [reflexivity|].
  rewrite (removeFromList_guarded auth ctx u listId bookmarkId l)
    by (try assumption; exact Hown).
  rewrite removeFromList_mutation_run, count_pair_inserted, Hc. simpl.
  unfold count_pair in Hc. rewrite (filter_drop_inserted _ _ _ Hc).
  rewrite DB_eta. reflexivity.
Qed.

Lemma X9_witness :
  listsAppRouter.removeFromList Sample.allow Sample.as_alice "l1" "b2"
    (snd (listsAppRouter.addToList Sample.allow None Sample.as_alice "l1" "b2" Sample.db))
  = (Return tt, Sample.db).
Proof.
  apply (X9_add_then_remove_restores Sample.allow Sample.as_alice Sample.alice
           "l1" "b2" Sample.reading Sample.db);
    first [reflexivity | split; reflexivity].
Defined.

(** X10. A membership call made twice fails the second time and writes
    nothing then: after an [addToList] that inserts the pair, a second
    one fails [BAD_REQUEST] (already in the list); after a
    [removeFromList] that deletes the row of the pair, a second one fails
    [BAD_REQUEST] (already not in list). *)
Theorem X10_repeated_membership_call_fails :
  forall auth ctx u listId bookmarkId l db,
    user ctx = Some u ->
    owns db u listId l ->
    auth ctx bookmarkId = None ->
    (BookmarkList.type l = manual ->
     count_pair db listId bookmarkId = 0 ->
     let db1 := snd (listsAppRouter.addToList auth None ctx listId bookmarkId db) in
     listsAppRouter.addToList auth None ctx listId bookmarkId db1
     = (Throw (ETRPC (mkTRPCError BAD_REQUEST
                        (Some ("Bookmark " ++ bookmarkId
                               ++ " is already in the list " ++ listId)))), db1))
    /\
    (count_pair db listId bookmarkId <> 0 ->
     let db1 := snd (listsAppRouter.removeFromList auth ctx listId bookmarkId db) in
     fst (listsAppRouter.removeFromList auth ctx listId bookmarkId db) = Return tt
     /\ listsAppRouter.removeFromList auth ctx listId bookmarkId db1
        = (Throw (ETRPC (mkTRPCError BAD_REQUEST
                           (Some ("Bookmark " ++ bookmarkId
                                  ++ " is already not in list " ++ listId)))), db1)).
Proof.
  intros auth ctx u listId bookmarkId l db Hu Hown Hb. split.
  - intros Hty Hc db1. unfold db1.
    rewrite (addToList_inserts auth ctx u listId bookmarkId l db) by assumption.
    simpl.
    rewrite (addToList_guarded auth None ctx u listId bookmarkId l)
      by (try assumption; exact Hown).
    rewrite (addToList_mutation_manual None u listId bookmarkId l);
      [|exact Hown|exact Hty].
    rewrite count_pair_inserted. reflexivity.
  - intros Hc db1. unfold db1.
    rewrite (removeFromList_guarded auth ctx u listId bookmarkId l db) by assumption.
    rewrite removeFromList_mutation_run.
    apply Nat.eqb_neq in Hc. rewrite Hc. simpl. split; [reflexivity|].
    apply (removeFromList_without_row auth ctx u listId bookmarkId l);
      try assumption; try exact Hown.
    unfold count_pair. simpl. apply length_zero_iff_nil, filter_nil_iff.
    intros m Hm. apply filter_In in Hm. destruct Hm as [_ Hm].
    apply negb_true_iff. exact Hm.
Qed.

Lemma X10_witness :
  listsAppRouter.removeFromList Sample.allow Sample.as_alice "l1" "b1"
    (snd (listsAppRouter.removeFromList Sample.allow Sample.as_alice "l1" "b1" Sample.db))
  = (Throw (ETRPC (mkTRPCError BAD_REQUEST
                     (Some "Bookmark b1 is already not in list l1"))),
     snd (listsAppRouter.removeFromList Sample.allow Sample.as_alice "l1" "b1" Sample.db)).
Proof.
  apply (proj2 (X10_repeated_membership_call_fails Sample.allow Sample.as_alice
                  Sample.alice "l1" "b1" Sample.reading Sample.db
                  eq_refl (conj eq_refl eq_refl) eq_refl)).
  discriminate.
Defined.

Lemma getListsOfBookmark_run auth ctx u bookmarkId db :
  user ctx = Some u ->
  auth ctx bookmarkId = None ->
  listsAppRouter.getListsOfBookmark auth ctx bookmarkId db
  = listsAppRouter.getListsOfBookmark_query u bookmarkId db.
Proof.
  intros Hu Hb. unfold listsAppRouter.getListsOfBookmark, authedProcedure.
  rewrite Hu. unfold listsAppRouter.ensureBookmarkOwnership. rewrite Hb. reflexivity.
Qed.

(** The rows that the query of [getListsOfBookmark] joins. *)
Lemma getListsOfBookmark_query_run u bookmarkId db :
  listsAppRouter.getListsOfBookmark_query u bookmarkId db
  = match listsAppRouter.owners
            (map (fun m => (m, find (id_is (BookmarkInList.listId m)) (bookmarkLists db)))
                 (filter (fun m => BookmarkInList.bookmarkId m =? bookmarkId)
                         (bookmarksInLists db))) with
    | None => (Throw ETypeError, db)
    | Some ids =>
        if forallb (fun id => id =? User.id u) ids
        then (Return
                (listsAppRouter.joined
                   (map (fun m => (m, find (id_is (BookmarkInList.listId m))
                                           (bookmarkLists db)))
                        (filter (fun m => BookmarkInList.bookmarkId m =? bookmarkId)
                                (bookmarksInLists db)))), db)
        else (Throw EAssertion, db)
    end.
Proof.
  unfold listsAppRouter.getListsOfBookmark_query, findMany_with_list. run.
  destruct (listsAppRouter.owners _) as [ids|]; [|reflexivity].
  destruct (forallb _ ids); reflexivity.
Qed.

Lemma owners_app rows rows' ids ids' :
  listsAppRouter.owners rows = Some ids ->
  listsAppRouter.owners rows' = Some ids' ->
  listsAppRouter.owners (rows ++ rows') = Some (ids ++ ids')%list.
Proof.
  revert ids. induction rows as [|[m [l|]] rows IH]; simpl; intros ids H H'.
  - injection H as <-. exact H'.
  - destruct (listsAppRouter.owners rows) as [ids0|]; [|discriminate].
    injection H as <-. rewrite (IH ids0 eq_refl H'). reflexivity.
  - discriminate.
Qed.

Lemma joined_app rows rows' :
  listsAppRouter.joined (rows ++ rows')
  = (listsAppRouter.joined rows ++ listsAppRouter.joined rows')%list.
Proof.
  induction rows as [|[m [l|]] rows IH]; simpl; [reflexivity| |exact IH].
  rewrite IH. reflexivity.
Qed.

(** X11. A bookmark put in a list shows that list: when
    [getListsOfBookmark] returned some lists for the bookmark, then after
    an [addToList] that inserts the pair it returns the same lists with
    the list of the call at the end. *)
Theorem X11_add_then_getListsOfBookmark :
  forall auth ctx u listId bookmarkId l before db,
    user ctx = Some u ->
    owns db u listId l ->
    auth ctx bookmarkId = None ->
    BookmarkList.type l = manual ->
    count_pair db listId bookmarkId = 0 ->
    listsAppRouter.getListsOfBookmark auth ctx bookmarkId db = (Return before, db) ->
    let db1 := snd (listsAppRouter.addToList auth None ctx listId bookmarkId db) in
    listsAppRouter.getListsOfBookmark auth ctx bookmarkId db1
    = (Return (before ++ [l])%list, db1).
Proof.
  intros auth ctx u listId bookmarkId l before db Hu Hown Hb Hty Hc Hbefore db1.
  unfold db1.
  rewrite (addToList_inserts auth ctx u listId bookmarkId l db) by assumption.
  simpl.
  rewrite (getListsOfBookmark_run auth ctx u) in * by assumption.
  rewrite getListsOfBookmark_query_run in *. simpl.
  rewrite filter_app, map_app. simpl. rewrite String.eqb_refl. simpl.
  destruct Hown as [Hf Ho]. rewrite Hf.
  destruct (listsAppRouter.owners _) as [ids|] eqn:Hids in Hbefore; [|discriminate].
  destruct (forallb _ ids) eqn:Hall; [|discriminate].
  injection Hbefore as <-.
  rewrite (owners_app _ [(BookmarkInList.mk listId bookmarkId, Some l)] ids
             [BookmarkList.userId l] Hids eq_refl).
  rewrite forallb_app, Hall. simpl.
  apply String.eqb_eq in Ho. rewrite Ho. simpl.
  rewrite joined_app. reflexivity.
Qed.

Lemma X11_witness :
  listsAppRouter.getListsOfBookmark Sample.allow Sample.as_alice "b2"
    (snd (listsAppRouter.addToList Sample.allow None Sample.as_alice "l1" "b2" Sample.db))
  = (Return [Sample.reading],
     snd (listsAppRouter.addToList Sample.allow None Sample.as_alice "l1" "b2" Sample.db)).
Proof.
  apply (X11_add_then_getListsOfBookmark Sample.allow Sample.as_alice Sample.alice
           "l1" "b2" Sample.reading [] Sample.db);
    first [reflexivity | split; reflexivity].
Defined.

Lemma owners_of_owned lists uid rows :
  (forall m, In m rows ->
     exists l, find (id_is (BookmarkInList.listId m)) lists = Some l
               /\ BookmarkList.userId l = uid) ->
  exists ids,
    listsAppRouter.owners
      (map (fun m => (m, find (id_is (BookmarkInList.listId m)) lists)) rows) = Some ids
    /\ forallb (fun id => id =? uid) ids = true
    /\ map Some
         (listsAppRouter.joined
            (map (fun m => (m, find (id_is (BookmarkInList.listId m)) lists)) rows))
       = map (fun m => find (id_is (BookmarkInList.listId m)) lists) rows.
Proof.
  induction rows as [|m rows IH]; simpl; intros H.
  - exists []. repeat split.
  - destruct (H m (or_introl eq_refl)) as [l [Hf Ho]].
    destruct IH as [ids [H1 [H2 H3]]];
      [intros m' Hm'; apply H; right; exact Hm'|].
    rewrite Hf, H1. exists (BookmarkList.userId l :: ids).
    split; [reflexivity|]. split.
    + simpl. rewrite H2. apply String.eqb_eq in Ho. rewrite Ho. reflexivity.
    + simpl. rewrite H3. reflexivity.
Qed.

(** X12. When every membership row of the bookmark references a list that
    exists and belongs to the caller, [getListsOfBookmark] returns, and it
    returns, row by row and in the order of the rows, the list that each
    row references. *)
Theorem X12_getListsOfBookmark_returns :
  forall auth ctx u bookmarkId db,
    user ctx = Some u ->
    auth ctx bookmarkId = None ->
    (forall m, In m (bookmarksInLists db) ->
       BookmarkInList.bookmarkId m = bookmarkId ->
       exists l, find (id_is (BookmarkInList.listId m)) (bookmarkLists db) = Some l
                 /\ BookmarkList.userId l = User.id u) ->
    exists lists,
      listsAppRouter.getListsOfBookmark auth ctx bookmarkId db = (Return lists, db)
      /\ map Some lists
         = map (fun m => find (id_is (BookmarkInList.listId m)) (bookmarkLists db))
               (filter (fun m => BookmarkInList.bookmarkId m =? bookmarkId)
                       (bookmarksInLists db)).
Proof.
  intros auth ctx u bookmarkId db Hu Hb Hall.
  rewrite (getListsOfBookmark_run auth ctx u) by assumption.
  rewrite getListsOfBookmark_query_run.
  destruct (owners_of_owned (bookmarkLists db) (User.id u)
              (filter (fun m => BookmarkInList.bookmarkId m =? bookmarkId)
                      (bookmarksInLists db))) as [ids [H1 [H2 H3]]].
  { intros m Hm. apply filter_In in Hm. destruct Hm as [Hm Hbm].
    apply String.eqb_eq in Hbm. exact (Hall m Hm Hbm). }
  rewrite H1, H2. eexists. split; [reflexivity|exact H3].
Qed.

Lemma X12_witness :
  exists lists,
    listsAppRouter.getListsOfBookmark Sample.allow Sample.as_alice "b1" Sample.db
    = (Return lists, Sample.db)
    /\ map Some lists = [Some Sample.reading].
Proof.
  apply (X12_getListsOfBookmark_returns Sample.allow Sample.as_alice Sample.alice
           "b1" Sample.db).
  - reflexivity.
  - reflexivity.
  - simpl. intros m [<-|[]] _. exists Sample.reading. split; reflexivity.
Defined.

Lemma edit_mutation_throw u input db e db' :
  listsAppRouter.edit_mutation u input db = (Throw e, db') -> db' = db.
Proof.
  unfold listsAppRouter.edit_mutation, update_bookmarkLists.
  fold (edit_set input). run.
  destruct (no_values (edit_set input)).
  - destruct (truthy _); simpl; [|intros [= _ <-]; reflexivity].
    destruct (find (id_and_owner _ _) _) as [l|]; simpl;
      [|intros [= _ <-]; reflexivity].
    destruct (negb _); simpl; intros [= _ <-]; reflexivity.
  - assert (Hupd :
      forall A (k : A) (r : Completion BookmarkList.t * DB),
        r = match map (apply_set (edit_set input))
                      (filter (id_and_owner (EditList.listId input) (User.id u))
                              (bookmarkLists db)) with
            | [] => (Throw (ETRPC (mkTRPCError NOT_FOUND None)),
                     edited u input db)
            | first :: _ => (Return first, edited u input db)
            end ->
        r = (Throw e, db') -> db' = db).
    { intros A k r ->.
      destruct (filter (id_and_owner (EditList.listId input) (User.id u))
                       (bookmarkLists db)) as [|x xs] eqn:E; simpl; [|discriminate].
      intros [= _ <-]. unfold edited.
      rewrite map_if_none; [apply DB_eta|].
      exact (proj1 (filter_nil_iff _ _) E). }
    destruct (truthy _); simpl.
    + destruct (find (id_and_owner _ _) _) as [l|]; simpl;
        [|intros [= _ <-]; reflexivity].
      destruct (negb _); simpl; [intros [= _ <-]; reflexivity|].
      apply (Hupd unit tt).
      unfold edited. destruct (map _ (filter _ _)); reflexivity.
    + apply (Hupd unit tt).
      unfold edited. destruct (map _ (filter _ _)); reflexivity.
Qed.

(** X13. A call that throws has written nothing: whenever create, edit,
    delete, addToList or removeFromList ends in an exception, whatever the
    exception, the store is the one the call started from. *)
Theorem X13_throwing_call_writes_nothing :
  forall newId auth fault ctx newList input listId bookmarkId db e db',
    (listsAppRouter.create newId ctx newList db = (Throw e, db') -> db' = db)
    /\ (listsAppRouter.edit ctx input db = (Throw e, db') -> db' = db)
    /\ (listsAppRouter.delete ctx listId db = (Throw e, db') -> db' = db)
    /\ (listsAppRouter.addToList auth fault ctx listId bookmarkId db = (Throw e, db') ->
        db' = db)
    /\ (listsAppRouter.removeFromList auth ctx listId bookmarkId db = (Throw e, db') ->
        db' = db).
Proof.
  intros newId auth fault ctx newList input listId bookmarkId db e db'.
  unfold listsAppRouter.create, listsAppRouter.edit, listsAppRouter.delete,
    listsAppRouter.addToList, listsAppRouter.removeFromList, authedProcedure.
  destruct (user ctx) as [u|] eqn:Hu;
    [|repeat split; intros [= _ <-]; reflexivity].
  split; [|split; [|split; [|split]]].
  - unfold listsAppRouter.create_mutation, insert_bookmarkLists. run.
    destruct (existsb _ _); simpl; [|discriminate].
    intros [= _ <-]. reflexivity.
  - destruct (guard_cases ctx (EditList.listId input)
                (listsAppRouter.edit_mutation u input) db)
      as [[e' ->]|[u' [l [_ [_ ->]]]]]; [intros [= _ <-]; reflexivity|].
    apply edit_mutation_throw.
  - destruct (guard_cases ctx listId (listsAppRouter.delete_mutation u listId) db)
      as [[e' ->]|[u' [l [_ [_ ->]]]]]; [intros [= _ <-]; reflexivity|].
    rewrite delete_mutation_run.
    destruct (filter _ _); [intros [= _ <-]; reflexivity|discriminate].
  - match goal with
    | |- context [ensureListOwnership ctx listId ?next db] =>
        destruct (guard_cases ctx listId next db)
          as [[e' ->]|[u' [l [Hu' [Hown ->]]]]]; [intros [= _ <-]; reflexivity|]
    end.
    rewrite Hu in Hu'. injection Hu' as <-.
    unfold listsAppRouter.ensureBookmarkOwnership.
    destruct (auth ctx bookmarkId) eqn:Hb; [intros [= _ <-]; reflexivity|].
    destruct (BookmarkList.type l) eqn:Hty.
    + rewrite (addToList_mutation_manual fault u listId bookmarkId l db Hown Hty).
      destruct fault as [x|].
      * destruct (match x with ESqlite c => _ | _ => false end);
          intros [= _ <-]; reflexivity.
      * destruct (_ =? 0)%nat; [discriminate|intros [= _ <-]; reflexivity].
    + pose proof (addToList_on_smart auth fault ctx u listId bookmarkId l db
                    Hu Hown Hb Hty) as H.
      rewrite (addToList_guarded auth fault ctx u listId bookmarkId l db) in H
        by assumption.
      rewrite H. intros [= _ <-]. reflexivity.
  - match goal with
    | |- context [ensureListOwnership ctx listId ?next db] =>
        destruct (guard_cases ctx listId next db)
          as [[e' ->]|[u' [l [_ [_ ->]]]]]; [intros [= _ <-]; reflexivity|]
    end.
    unfold listsAppRouter.ensureBookmarkOwnership.
    destruct (auth ctx bookmarkId); [intros [= _ <-]; reflexivity|].
    rewrite removeFromList_mutation_run.
    destruct (_ =? 0)%nat; [intros [= _ <-]; reflexivity|discriminate].
Qed.

Lemma X13_witness :
  snd (listsAppRouter.edit Sample.as_alice
         (EditList.mk "l1" (Some "Read later") None undefined (value "is:fav"))
         Sample.db)
  = Sample.db.
Proof.
  exact (proj1 (proj2 (X13_throwing_call_writes_nothing "l4" Sample.allow None
                         Sample.as_alice
                         (NewList.mk "Inbox" "tray" null manual null)
                         (EditList.mk "l1" (Some "Read later") None undefined
                            (value "is:fav"))
                         "l1" "b1" Sample.db
                         (ETRPC (mkTRPCError BAD_REQUEST
                                   (Some "Manual lists cannot have a query")))
                         Sample.db))
           eq_refl).
Defined.

Lemma filter_map_fixed {A} (p : A -> bool) (f : A -> A) (xs : list A) :
  (forall x, p (f x) = p x) ->
  (forall x, p x = true -> f x = x) ->
  filter p (map f xs) = filter p xs.
Proof.
  intros Hp Hf. induction xs as [|x xs IH]; simpl; [reflexivity|].
  rewrite Hp. destruct (p x) eqn:E; [|exact IH].
  rewrite (Hf x E), IH. reflexivity.
Qed.

Lemma filter_filter_implied {A} (p q : A -> bool) (xs : list A) :
  (forall x, p x = true -> q x = true) ->
  filter p (filter q xs) = filter p xs.
Proof.
  intros H. induction xs as [|x xs IH]; simpl; [reflexivity|].
  destruct (p x) eqn:E.
  - rewrite (H x E). simpl. rewrite E, IH. reflexivity.
  - destruct (q x); simpl; [rewrite E|]; exact IH.
Qed.

Lemma other_owner_not_matched listId uid x :
  negb (BookmarkList.userId x =? uid) = true ->
  id_and_owner listId uid x = false.
Proof.
  intros H. apply negb_true_iff in H. unfold id_and_owner. rewrite H.
  apply andb_false_r.
Qed.

Lemma create_after_by newId ctx u input db :
  user ctx = Some u ->
  snd (listsAppRouter.create newId ctx input db) = db
  \/ exists row,
       BookmarkList.userId row = User.id u
       /\ snd (listsAppRouter.create newId ctx input db)
          = mkDB (bookmarkLists db ++ [row]) (bookmarksInLists db).
Proof.
  intros Hu. unfold listsAppRouter.create, authedProcedure. rewrite Hu.
  unfold listsAppRouter.create_mutation, insert_bookmarkLists. run.
  destruct (existsb _ _); simpl; [left; reflexivity|].
  right. eexists. split; [|reflexivity]. reflexivity.
Qed.

Lemma edit_after_by ctx u input db :
  user ctx = Some u ->
  snd (listsAppRouter.edit ctx input db) = db
  \/ snd (listsAppRouter.edit ctx input db) = edited u input db.
Proof.
  intros Hu. unfold listsAppRouter.edit, authedProcedure. rewrite Hu.
  destruct (guard_cases ctx (EditList.listId input)
              (listsAppRouter.edit_mutation u input) db)
    as [[e ->]|[u' [l [_ [_ ->]]]]]; [left; reflexivity|].
  apply edit_mutation_after.
Qed.

Lemma delete_after_by ctx u listId db :
  user ctx = Some u ->
  snd (listsAppRouter.delete ctx listId db) = db
  \/ snd (listsAppRouter.delete ctx listId db) = deleted u listId db.
Proof.
  intros Hu. unfold listsAppRouter.delete, authedProcedure. rewrite Hu.
  destruct (guard_cases ctx listId (listsAppRouter.delete_mutation u listId) db)
    as [[e ->]|[u' [l [_ [_ ->]]]]]; [left; reflexivity|].
  rewrite delete_mutation_run.
  destruct (filter _ _); [left|right]; reflexivity.
Qed.

(** X14. No call changes the lists of anyone else: after any of the five
    writing calls made by a caller, whatever its arguments and whether it
    returned or threw, the lists owned by the other users are the same
    rows, in the same order, as before. *)
Theorem X14_calls_keep_lists_of_others :
  forall c u db,
    user (caller c) = Some u ->
    lists_of_others (User.id u) (after c db) = lists_of_others (User.id u) db.
Proof.
  intros c u db Hu. unfold lists_of_others.
  destruct c as [newId ctx input|ctx input|ctx listId
                |auth fault ctx listId bookmarkId
                |auth ctx listId bookmarkId]; simpl in *.
  - destruct (create_after_by newId ctx u input db Hu) as [->|[row [Ho ->]]];
      [reflexivity|].
    simpl. rewrite filter_app. simpl. rewrite Ho, String.eqb_refl. simpl.
    apply app_nil_r.
  - destruct (edit_after_by ctx u input db Hu) as [->| ->]; [reflexivity|].
    unfold edited. simpl. apply filter_map_fixed.
    + intros x. destruct (id_and_owner _ _ x); reflexivity.
    + intros x Hx. rewrite (other_owner_not_matched _ _ _ Hx). reflexivity.
  - destruct (delete_after_by ctx u listId db Hu) as [->| ->]; [reflexivity|].
    unfold deleted. simpl. apply filter_filter_implied.
    intros x Hx. rewrite (other_owner_not_matched _ _ _ Hx). reflexivity.
  - destruct (addToList_after auth fault ctx listId bookmarkId db)
      as [->|[l [_ [_ [_ ->]]]]]; reflexivity.
  - destruct (removeFromList_after auth ctx listId bookmarkId db) as [->| ->];
      reflexivity.
Qed.

Lemma X14_witness :
  lists_of_others "alice" (after (CallDelete Sample.as_alice "l1") Sample.db)
  = [Sample.recipes].
Proof.
  exact (X14_calls_keep_lists_of_others (CallDelete Sample.as_alice "l1")
           Sample.alice Sample.db eq_refl).
Defined.

(** X15. A call writes membership rows of one list only: create and edit
    leave the membership table as it is, and delete, addToList and
    removeFromList neither add nor remove a row of any list other than
    the one they are called for. *)
Theorem X15_calls_keep_rows_of_other_lists :
  forall c db m,
    (forall listId, target c = Some listId -> BookmarkInList.listId m <> listId) ->
    (In m (bookmarksInLists (after c db)) <-> In m (bookmarksInLists db)).
Proof.
  intros c db m Hm.
  destruct c as [newId ctx input|ctx input|ctx listId
                |auth fault ctx listId bookmarkId
                |auth ctx listId bookmarkId]; simpl in *.
  - destruct (create_after newId ctx input db) as [->|[row ->]]; reflexivity.
  - destruct (edit_after ctx input db) as [->|[u ->]]; reflexivity.
  - specialize (Hm listId eq_refl).
    destruct (delete_after ctx listId db) as [->|[u ->]]; [reflexivity|].
    unfold deleted. simpl. rewrite filter_In. split; [intros [H _]; exact H|].
    intros H. split; [exact H|]. unfold cascade. apply negb_true_iff.
    destruct (existsb _ _) eqn:E; [|reflexivity].
    apply existsb_exists in E. destruct E as [x [Hx Hid]].
    apply filter_In in Hx. destruct Hx as [_ Hw].
    unfold id_and_owner in Hw. apply andb_prop in Hw. destruct Hw as [Hw _].
    unfold id_is in Hid. apply String.eqb_eq in Hid, Hw.
    destruct Hm. rewrite <- Hid. exact Hw.
  - specialize (Hm listId eq_refl).
    destruct (addToList_after auth fault ctx listId bookmarkId db)
      as [->|[l [_ [_ [_ ->]]]]]; [reflexivity|].
    simpl. rewrite in_app_iff. split; [|intros H; left; exact H].
    intros [H|[<-|[]]]; [exact H|]. destruct Hm. reflexivity.
  - specialize (Hm listId eq_refl).
    destruct (removeFromList_after auth ctx listId bookmarkId db) as [->| ->];
      [reflexivity|].
    simpl. rewrite filter_In. split; [intros [H _]; exact H|].
    intros H. split; [exact H|]. apply negb_true_iff. unfold pair_is.
    apply String.eqb_neq in Hm. rewrite Hm. reflexivity.
Qed.

Lemma X15_witness :
  In (BookmarkInList.mk "l1" "b1")
     (bookmarksInLists (after (CallDelete Sample.as_bob "l3") Sample.db_crossed))
  <-> In (BookmarkInList.mk "l1" "b1") (bookmarksInLists Sample.db_crossed).
Proof.
  apply (X15_calls_keep_rows_of_other_lists (CallDelete Sample.as_bob "l3")
           Sample.db_crossed (BookmarkInList.mk "l1" "b1")).
  simpl. intros listId [= <-]. discriminate.
Defined.

Lemma singleton_unique {A} (xs : list A) (a b : A) :
  length xs = 1 -> In a xs -> In b xs -> a = b.
Proof.
  destruct xs as [|x [|y xs]]; simpl; try discriminate.
  intros _ [<-|[]] [<-|[]]. reflexivity.
Qed.

(** X16. A deleted list is gone for its owner: when the id names one list
    only and its owner deletes it, the [delete] returns, and afterwards
    [get] and a second [delete] of that id by the same caller fail
    [NOT_FOUND] (List not found), and no list returned by [list] has that
    id. *)
Theorem X16_deleted_list_is_gone :
  forall ctx u listId l db,
    user ctx = Some u ->
    owns db u listId l ->
    length (filter (id_is listId) (bookmarkLists db)) = 1 ->
    let db' := snd (listsAppRouter.delete ctx listId db) in
    fst (listsAppRouter.delete ctx listId db) = Return tt
    /\ listsAppRouter.get ctx listId db'
       = (Throw (ETRPC (mkTRPCError NOT_FOUND (Some "List not found"))), db')
    /\ listsAppRouter.delete ctx listId db'
       = (Throw (ETRPC (mkTRPCError NOT_FOUND (Some "List not found"))), db')
    /\ (forall lists x, fst (listsAppRouter.list ctx db') = Return lists ->
          In x lists -> BookmarkList.id x <> listId).
Proof.
  intros ctx u listId l db Hu Hown Hone db'.
  assert (Hrun : listsAppRouter.delete ctx listId db = (Return tt, deleted u listId db)).
  { unfold listsAppRouter.delete, authedProcedure. rewrite Hu.
    rewrite (ensureListOwnership_pass ctx u listId l) by assumption.
    rewrite delete_mutation_run.
    pose proof (owner_row_matches _ _ _ _ Hown) as Hne.
    destruct (filter (id_and_owner listId (User.id u)) (bookmarkLists db));
      [destruct (Hne eq_refl)|reflexivity]. }
  unfold db'. rewrite Hrun. simpl.
  assert (Hgone : forall x, In x (bookmarkLists (deleted u listId db)) ->
                            BookmarkList.id x <> listId).
  { intros x Hx Hid. unfold deleted in Hx. simpl in Hx.
    apply filter_In in Hx. destruct Hx as [Hx Hw].
    apply negb_true_iff in Hw. destruct Hown as [Hf Ho].
    apply find_some in Hf. destruct Hf as [Hl Hlid].
    assert (x = l).
    { apply (singleton_unique _ x l Hone); apply filter_In; split; try assumption.
      unfold id_is. apply String.eqb_eq. exact Hid. }
    subst x. unfold id_and_owner in Hw. unfold id_is in Hlid.
    apply String.eqb_eq in Ho. rewrite Hlid, Ho in Hw. discriminate. }
  split; [reflexivity|]. split; [|split].
  - unfold listsAppRouter.get, authedProcedure. rewrite Hu.
    apply (ensureListOwnership_not_found ctx u listId); assumption.
  - unfold listsAppRouter.delete, authedProcedure. rewrite Hu.
    apply (ensureListOwnership_not_found ctx u listId); assumption.
  - intros lists x. unfold listsAppRouter.list, authedProcedure, findMany.
    rewrite Hu. simpl. intros [= <-] Hx. apply filter_In in Hx.
    apply Hgone. exact (proj1 Hx).
Qed.

Lemma X16_witness :
  listsAppRouter.get Sample.as_alice "l1"
    (snd (listsAppRouter.delete Sample.as_alice "l1" Sample.db))
  = (Throw (ETRPC (mkTRPCError NOT_FOUND (Some "List not found"))),
     snd (listsAppRouter.delete Sample.as_alice "l1" Sample.db)).
Proof.
  apply (proj1 (proj2 (X16_deleted_list_is_gone Sample.as_alice Sample.alice "l1"
                         Sample.reading Sample.db
                         eq_refl (conj eq_refl eq_refl) eq_refl))).
Defined.

(** X17. Each call writes one table only, except delete: addToList and
    removeFromList never change the table of lists, and create and edit
    never change the membership table, whatever their arguments and
    whether they return or throw. *)
Theorem X17_calls_write_one_table :
  forall c db,
    match c with
    | CallAddToList _ _ _ _ _ | CallRemoveFromList _ _ _ _ =>
        bookmarkLists (after c db) = bookmarkLists db
    | CallCreate _ _ _ | CallEdit _ _ =>
        bookmarksInLists (after c db) = bookmarksInLists db
    | CallDelete _ listId =>
        forall x, In x (bookmarkLists db) -> BookmarkList.id x <> listId ->
                  In x (bookmarkLists (after c db))
    end.
Proof.
  intros c db.
  destruct c as [newId ctx input|ctx input|ctx listId
                |auth fault ctx listId bookmarkId
                |auth ctx listId bookmarkId]; simpl.
  - destruct (create_after newId ctx input db) as [->|[row ->]]; reflexivity.
  - destruct (edit_after ctx input db) as [->|[u ->]]; reflexivity.
  - intros x Hx Hid.
    destruct (delete_after ctx listId db) as [->|[u ->]]; [exact Hx|].
    unfold deleted. simpl. apply filter_In. split; [exact Hx|].
    apply negb_true_iff. unfold id_and_owner.
    apply String.eqb_neq in Hid. rewrite Hid. reflexivity.
  - destruct (addToList_after auth fault ctx listId bookmarkId db)
      as [->|[l [_ [_ [_ ->]]]]]; reflexivity.
  - destruct (removeFromList_after auth ctx listId bookmarkId db) as [->| ->];
      reflexivity.
Qed.

Lemma X17_witness :
  In Sample.recent (bookmarkLists (after (CallDelete Sample.as_alice "l1") Sample.db)).
Proof.
  apply (X17_calls_write_one_table (CallDelete Sample.as_alice "l1") Sample.db).
  - right. left. reflexivity.
  - discriminate.
Defined.
